(** * SmokeRing cook planner: plan generation and re-prediction

    A shallow embedding of [apps/api/src/services/cookPlanner.ts] together
    with the lookup tables of [packages/shared/src/constants/index.ts] and
    the request schemas of [apps/api/src/routes/cooks.ts].

    Modelling conventions.
    - A JavaScript [number] is an exact rational ([Q]); the rounding error
      of IEEE-754 doubles is not modelled.  [Math.round] is
      [floor (x + 1/2)] (ties go up, as in JavaScript).
    - Numbers that the code only ever produces through [Math.round] or
      takes from integer table entries (duration ranges, the confidence
      score) are kept in [Z].
    - Division follows [Q], where [x / 0] is [0]; JavaScript gives an
      infinity or NaN there.  The statements on [updatePrediction] are for
      a non-zero target temperature and a non-zero total expected time,
      which the callers of the function have to ensure.
    - A [Date] is its [getTime ()] value, an integer count of milliseconds;
      [new Date (t)] is the identity on such counts (every instant built
      here lies well inside the range of valid dates).
    - Interpolated note strings are kept as a template together with the
      interpolated values. *)

From Stdlib Require Import ZArith QArith Qround Qabs Qminmax Lqa Lia List Bool String.
From Stdlib Require Import Permutation.
Import ListNotations.

Open Scope Z_scope.

(* ================================================================== *)
(** ** Enumerations ([packages/shared/src/types/index.ts]) *)

Inductive SmokerType := PELLET | OFFSET | KAMADO | ELECTRIC | KETTLE.

Inductive MeatCut := BRISKET | PORK_SHOULDER | SPARE_RIBS | BABY_BACK_RIBS | BEEF_RIBS.

Inductive WrapMethod := NONE | BUTCHER_PAPER | FOIL.

Inductive Confidence := HIGH | MEDIUM | LOW.

Definition MeatCut_eqb (a b : MeatCut) : bool :=
  match a, b with
  | BRISKET, BRISKET | PORK_SHOULDER, PORK_SHOULDER | SPARE_RIBS, SPARE_RIBS
  | BABY_BACK_RIBS, BABY_BACK_RIBS | BEEF_RIBS, BEEF_RIBS => true
  | _, _ => false
  end.

Definition WrapMethod_eqb (a b : WrapMethod) : bool :=
  match a, b with
  | NONE, NONE | BUTCHER_PAPER, BUTCHER_PAPER | FOIL, FOIL => true
  | _, _ => false
  end.

Definition Confidence_eqb (a b : Confidence) : bool :=
  match a, b with
  | HIGH, HIGH | MEDIUM, MEDIUM | LOW, LOW => true
  | _, _ => false
  end.

(** A [Date], as its millisecond count. *)
Definition Date := Z.

(** [{ min: number; max: number }] with integer entries (minutes). *)
Module Range.
Record t := mk { min : Z; max : Z }.
End Range.

(** The interpolated note strings of the planner, by template. *)
Inductive Note :=
| NoteRest (lo hi : Z)            (* Rest for lo-hi minutes minimum *)
| NoteWrappedIn (w : WrapMethod)  (* Wrapped in <wrap method, lower case> *)
| NoteUnwrapped                   (* Unwrapped cook continues *)
| NoteWrapWhen (lo hi : Z)        (* Wrap when internal temp reaches lo-hi F *)
| NoteStall (lo hi : Z)           (* High variance - internal temp plateaus at lo-hi F *)
| NoteSmokeAt (tempF : Q)         (* Smoke at tempF F *)
| NotePreheatTo (tempF : Q)       (* Preheat smoker to tempF F *)
| NotePrep.                       (* Trim fat, apply rub, bring to room temperature *)

Record CookPlanInput := {
  meatCut : MeatCut;
  weightLbs : Q;
  smokerType : SmokerType;
  smokerTempF : Q;
  wrapMethod : WrapMethod;
  serveTime : Date;
  ambientTempF : option Q;
  altitude : option Q
}.

(** [PhaseDefinition]; [order] is the field that [generateCookPlan] adds to
    each phase object once the list is assembled. *)
Record PhaseDefinition := {
  name : string;
  startTime : Date;
  endTime : Date;
  durationRange : Range.t;
  confidence : Confidence;
  notes : Note;
  order : option Z
}.

Record ConfidenceRange := { earliest : Date; latest : Date }.

Record CookPlan := {
  phases : list PhaseDefinition;
  predictedFinishTime : Date;
  confidenceRange : ConfidenceRange;
  overallConfidence : Z;
  recommendedStartTime : Date
}.

(* ================================================================== *)
(** ** Lookup tables ([packages/shared/src/constants/index.ts]) *)

Module BaseTime.
Record t := mk { min : Q; max : Q; perPound : bool }.
End BaseTime.

Definition BASE_COOK_TIMES (c : MeatCut) : BaseTime.t :=
  match c with
  | BRISKET => BaseTime.mk 60 90 true
  | PORK_SHOULDER => BaseTime.mk 90 120 true
  | SPARE_RIBS => BaseTime.mk 300 360 false
  | BABY_BACK_RIBS => BaseTime.mk 240 300 false
  | BEEF_RIBS => BaseTime.mk 360 480 false
  end.

Record SmokerFactor := { multiplier : Q; varianceMultiplier : Q }.

Definition SMOKER_MULTIPLIERS (s : SmokerType) : SmokerFactor :=
  match s with
  | PELLET => {| multiplier := 0.90; varianceMultiplier := 0.8 |}
  | OFFSET => {| multiplier := 1.15; varianceMultiplier := 1.3 |}
  | KAMADO => {| multiplier := 0.95; varianceMultiplier := 0.85 |}
  | ELECTRIC => {| multiplier := 1.0; varianceMultiplier := 1.0 |}
  | KETTLE => {| multiplier := 1.10; varianceMultiplier := 1.2 |}
  end.

Module STALL_CONFIG.
Definition startTempF : Z := 150.
Definition endTempF : Z := 170.
Definition durationMinutes : Range.t := Range.mk 60 240.
Definition wrapReductionFactor : Q := 0.5.
Definition affectedCuts : list MeatCut := [BRISKET; PORK_SHOULDER].
End STALL_CONFIG.

Module ENVIRONMENTAL_THRESHOLDS.
Definition coldAmbient : Q := 40.
Definition hotAmbient : Q := 90.
Definition highAltitude : Q := 5000.
End ENVIRONMENTAL_THRESHOLDS.

Module ENVIRONMENTAL_MULTIPLIERS.
Definition coldAmbient : Q := 1.12.
Definition hotAmbient : Q := 0.92.
Definition highAltitude : Q := 1.10.
End ENVIRONMENTAL_MULTIPLIERS.

(** The keys of [PHASE_NAMES]. *)
Inductive PhaseKey :=
  PREP | PREHEAT | SMOKE_1 | STALL | WRAP_DECISION | SMOKE_2 | REST | SERVE.

Definition PHASE_NAMES (k : PhaseKey) : string :=
  match k with
  | PREP => "Prep & Trim"
  | PREHEAT => "Preheat Smoker"
  | SMOKE_1 => "Smoke Phase 1"
  | STALL => "Stall Window"
  | WRAP_DECISION => "Wrap Decision"
  | SMOKE_2 => "Smoke Phase 2"
  | REST => "Rest"
  | SERVE => "Serve Window"
  end.

(** [PHASE_CONFIDENCE[PHASE_NAMES.k]]. *)
Definition PHASE_CONFIDENCE (k : PhaseKey) : Confidence :=
  match k with
  | PREP => HIGH
  | PREHEAT => HIGH
  | SMOKE_1 => MEDIUM
  | STALL => LOW
  | WRAP_DECISION => MEDIUM
  | SMOKE_2 => MEDIUM
  | REST => HIGH
  | SERVE => HIGH
  end.

Definition PREP_TIME_MINUTES : Range.t := Range.mk 30 45.
Definition PREHEAT_TIME_MINUTES : Range.t := Range.mk 15 30.

Definition REST_TIME_MINUTES (c : MeatCut) : Range.t :=
  match c with
  | BRISKET => Range.mk 60 120
  | PORK_SHOULDER => Range.mk 45 90
  | SPARE_RIBS => Range.mk 10 20
  | BABY_BACK_RIBS => Range.mk 10 15
  | BEEF_RIBS => Range.mk 30 60
  end.

Module CONFIDENCE_THRESHOLDS.
Definition high : Z := 70.
Definition medium : Z := 40.
End CONFIDENCE_THRESHOLDS.

(* ================================================================== *)
(** ** Request validation ([apps/api/src/routes/cooks.ts]) *)

(** [z.number ().min (lo).max (hi)]. *)
Definition z_number (lo hi : Q) (x : Q) : bool :=
  Qle_bool lo x && Qle_bool x hi.

(** [schema.optional ()]. *)
Definition z_optional (schema : Q -> bool) (x : option Q) : bool :=
  match x with
  | Some v => schema v
  | None => true
  end.

(** [planCookSchema] of [routes/cooks.ts], on the numeric fields: the
    inputs that reach [generateCookPlan]. *)
Definition planCookSchema (i : CookPlanInput) : bool :=
  z_number 0.5 30 (weightLbs i)
  && z_number 175 400 (smokerTempF i)
  && z_optional (z_number (-20) 120) (ambientTempF i)
  && z_optional (z_number 0 15000) (altitude i).

(** [logTempSchema] of [routes/cooks.ts], on [internalTempF]: the range of
    a logged internal temperature. *)
Definition logTempSchema (internalTempF : Q) : bool :=
  z_number 32 220 internalTempF.

(* ================================================================== *)
(** ** The planner ([apps/api/src/services/cookPlanner.ts]) *)

(** [Math.round]. *)
Definition Math_round (x : Q) : Z := Qfloor (x + (1 # 2))%Q.

(** JavaScript's [<] and [>] on numbers. *)
Definition Qltb (x y : Q) : bool := negb (Qle_bool y x).

Definition getEnvironmentalMultiplier (ambientTempF altitude : option Q) : Q :=
  let multiplier := 1.0%Q in
  let multiplier :=
    match ambientTempF with
    | Some a =>
        if Qltb a ENVIRONMENTAL_THRESHOLDS.coldAmbient
        then (multiplier * ENVIRONMENTAL_MULTIPLIERS.coldAmbient)%Q
        else if Qltb ENVIRONMENTAL_THRESHOLDS.hotAmbient a
        then (multiplier * ENVIRONMENTAL_MULTIPLIERS.hotAmbient)%Q
        else multiplier
    | None => multiplier
    end in
  let multiplier :=
    match altitude with
    | Some h =>
        if Qltb ENVIRONMENTAL_THRESHOLDS.highAltitude h
        then (multiplier * ENVIRONMENTAL_MULTIPLIERS.highAltitude)%Q
        else multiplier
    | None => multiplier
    end in
  multiplier.

Definition hasStall (meatCut : MeatCut) : bool :=
  existsb (MeatCut_eqb meatCut) STALL_CONFIG.affectedCuts.

Definition calculateBaseCookTime (meatCut : MeatCut) (weightLbs : Q)
    (smokerType : SmokerType) (wrapMethod : WrapMethod)
    (ambientTempF altitude : option Q) : Range.t :=
  let baseTime := BASE_COOK_TIMES meatCut in
  let smokerFactor := SMOKER_MULTIPLIERS smokerType in
  let envMultiplier := getEnvironmentalMultiplier ambientTempF altitude in
  let '(minTime, maxTime) :=
    if BaseTime.perPound baseTime
    then (BaseTime.min baseTime * weightLbs, BaseTime.max baseTime * weightLbs)%Q
    else (BaseTime.min baseTime, BaseTime.max baseTime) in
  (* Apply smoker multiplier *)
  let minTime := (minTime * multiplier smokerFactor)%Q in
  let maxTime := (maxTime * multiplier smokerFactor)%Q in
  (* Apply variance multiplier *)
  let variance := (maxTime - minTime)%Q in
  let adjustedVariance := (variance * varianceMultiplier smokerFactor)%Q in
  let midpoint := ((minTime + maxTime) / 2)%Q in
  let minTime := (midpoint - adjustedVariance / 2)%Q in
  let maxTime := (midpoint + adjustedVariance / 2)%Q in
  (* Apply environmental multiplier *)
  let minTime := (minTime * envMultiplier)%Q in
  let maxTime := (maxTime * envMultiplier)%Q in
  Range.mk (Math_round minTime) (Math_round maxTime).

Definition calculateStallDuration (meatCut : MeatCut) (wrapMethod : WrapMethod)
    : option Range.t :=
  if negb (hasStall meatCut) then None
  else
    let min := inject_Z (Range.min STALL_CONFIG.durationMinutes) in
    let max := inject_Z (Range.max STALL_CONFIG.durationMinutes) in
    (* Wrapping reduces stall duration *)
    let '(min, max) :=
      if negb (WrapMethod_eqb wrapMethod NONE)
      then (min * STALL_CONFIG.wrapReductionFactor,
            max * STALL_CONFIG.wrapReductionFactor)%Q
      else (min, max) in
    Some (Range.mk (Math_round min) (Math_round max)).

(** [phases.filter (p => p.confidence === c).length]. *)
Definition count_confidence (c : Confidence) (phases : list PhaseDefinition) : Z :=
  Z.of_nat (List.length (filter (fun p => Confidence_eqb (confidence p) c) phases)).

Definition calculateOverallConfidence (phases : list PhaseDefinition)
    (smokerType : SmokerType) : Z :=
  let smokerFactor := SMOKER_MULTIPLIERS smokerType in
  let baseConfidence := (100 - (varianceMultiplier smokerFactor - 1) * 50)%Q in
  let lowConfidenceCount := count_confidence LOW phases in
  let baseConfidence := (baseConfidence - inject_Z lowConfidenceCount * 10)%Q in
  let mediumConfidenceCount := count_confidence MEDIUM phases in
  let baseConfidence := (baseConfidence - inject_Z mediumConfidenceCount * 5)%Q in
  Z.max 20 (Z.min 100 (Math_round baseConfidence)).

(** [phases.forEach ((phase, index) => phase.order = index)]. *)
Fixpoint assign_order_from (index : Z) (phases : list PhaseDefinition)
    : list PhaseDefinition :=
  match phases with
  | [] => []
  | p :: rest =>
      {| name := name p; startTime := startTime p; endTime := endTime p;
         durationRange := durationRange p; confidence := confidence p;
         notes := notes p; order := Some index |}
      :: assign_order_from (index + 1) rest
  end.

Definition assign_order := assign_order_from 0.

Definition mkPhase (k : PhaseKey) (s e : Date) (d : Range.t) (n : Note)
    : PhaseDefinition :=
  {| name := PHASE_NAMES k; startTime := s; endTime := e; durationRange := d;
     confidence := PHASE_CONFIDENCE k; notes := n; order := None |}.

Definition generateCookPlan (input : CookPlanInput) : CookPlan :=
  let meatCut := meatCut input in
  let weightLbs := weightLbs input in
  let smokerType := smokerType input in
  let smokerTempF := smokerTempF input in
  let wrapMethod := wrapMethod input in
  let serveTime := serveTime input in
  let ambientTempF := ambientTempF input in
  let altitude := altitude input in
  let phases : list PhaseDefinition := [] in
  let serveDate : Date := serveTime in
  (* Calculate total cook time *)
  let cookTimeRange :=
    calculateBaseCookTime meatCut weightLbs smokerType wrapMethod
      ambientTempF altitude in
  (* Calculate stall duration if applicable *)
  let stallDuration := calculateStallDuration meatCut wrapMethod in
  (* Get rest time *)
  let restTime := REST_TIME_MINUTES meatCut in
  (* Work backwards from serve time *)
  let currentTime : Date := serveDate in
  (* Phase: Serve Window *)
  let serveWindowStart : Date := currentTime - 30 * 60000 in
  let serveWindowEnd : Date := currentTime + 30 * 60000 in
  (* Phase: Rest *)
  let restEnd := serveWindowStart in
  let restStart : Date := restEnd - Range.max restTime * 60000 in
  let phases :=
    mkPhase REST restStart restEnd restTime
      (NoteRest (Range.min restTime) (Range.max restTime)) :: phases in
  (* Calculate when cooking should end *)
  let predictedFinishTime := restStart in
  (* Phase: Smoke Phase 2 *)
  let hasPrimaryStall := hasStall meatCut in
  let smoke2End := restStart in
  let '(smoke1Duration, smoke2Duration) :=
    match hasPrimaryStall, stallDuration with
    | true, Some _ =>
        (Range.mk (Math_round (inject_Z (Range.min cookTimeRange) * 0.4))
                  (Math_round (inject_Z (Range.max cookTimeRange) * 0.4)),
         Range.mk (Math_round (inject_Z (Range.min cookTimeRange) * 0.3))
                  (Math_round (inject_Z (Range.max cookTimeRange) * 0.3)))
    | _, _ => (cookTimeRange, Range.mk 0 0)
    end in
  let phases :=
    if 0 <? Range.min smoke2Duration then
      let smoke2Start : Date := smoke2End - Range.max smoke2Duration * 60000 in
      let phases :=
        mkPhase SMOKE_2 smoke2Start smoke2End smoke2Duration
          (if negb (WrapMethod_eqb wrapMethod NONE)
           then NoteWrappedIn wrapMethod else NoteUnwrapped) :: phases in
      (* Phase: Wrap Decision (if wrapping) *)
      let phases :=
        if negb (WrapMethod_eqb wrapMethod NONE) then
          mkPhase WRAP_DECISION smoke2Start smoke2Start (Range.mk 0 0)
            (NoteWrapWhen STALL_CONFIG.startTempF STALL_CONFIG.endTempF)
          :: phases
        else phases in
      (* Phase: Stall Window *)
      match stallDuration with
      | Some stallDuration =>
          let stallEnd := smoke2Start in
          let stallStart : Date := stallEnd - Range.max stallDuration * 60000 in
          mkPhase STALL stallStart stallEnd stallDuration
            (NoteStall STALL_CONFIG.startTempF STALL_CONFIG.endTempF)
          :: phases
      | None => phases
      end
    else phases in
  (* Phase: Smoke Phase 1 *)
  let smoke1End : Date :=
    match phases with
    | p :: _ => startTime p
    | [] => smoke2End
    end in
  let smoke1Start : Date := smoke1End - Range.max smoke1Duration * 60000 in
  let phases :=
    mkPhase SMOKE_1 smoke1Start smoke1End smoke1Duration
      (NoteSmokeAt smokerTempF) :: phases in
  (* Phase: Preheat Smoker *)
  let preheatEnd := smoke1Start in
  let preheatStart : Date :=
    preheatEnd - Range.max PREHEAT_TIME_MINUTES * 60000 in
  let phases :=
    mkPhase PREHEAT preheatStart preheatEnd PREHEAT_TIME_MINUTES
      (NotePreheatTo smokerTempF) :: phases in
  (* Phase: Prep & Trim *)
  let prepEnd := preheatStart in
  let prepStart : Date := prepEnd - Range.max PREP_TIME_MINUTES * 60000 in
  let phases :=
    mkPhase PREP prepStart prepEnd PREP_TIME_MINUTES NotePrep :: phases in
  (* Calculate confidence range for finish time *)
  let totalVarianceMinutes :=
    (Range.max cookTimeRange - Range.min cookTimeRange)
    + match stallDuration with
      | Some stallDuration => Range.max stallDuration - Range.min stallDuration
      | None => 0
      end in
  let confidenceRange :=
    {| earliest := predictedFinishTime - totalVarianceMinutes * 30000;
       latest := predictedFinishTime + totalVarianceMinutes * 30000 |} in
  (* Calculate overall confidence *)
  let overallConfidence := calculateOverallConfidence phases smokerType in
  (* Assign order to phases *)
  let phases := assign_order phases in
  {| phases := phases;
     predictedFinishTime := predictedFinishTime;
     confidenceRange := confidenceRange;
     overallConfidence := overallConfidence;
     recommendedStartTime := prepStart |}.

Inductive Status := ahead | on_track | behind.

Record Prediction := {
  updatedFinishTime : Date;
  adjustedConfidence : Z;
  status : Status
}.

Definition updatePrediction (originalPlan : CookPlan)
    (currentTempF elapsedMinutes targetTempF : Q) : Prediction :=
  let totalExpectedMinutes :=
    (inject_Z (latest (confidenceRange originalPlan)
               - recommendedStartTime originalPlan) / 60000)%Q in
  let expectedProgress := (elapsedMinutes / totalExpectedMinutes)%Q in
  let actualProgress := (currentTempF / targetTempF)%Q in
  (* Determine if ahead, behind, or on track *)
  let '(status, timeAdjustment) :=
    if Qltb (expectedProgress * 1.1) actualProgress then
      (ahead,
       - Math_round ((actualProgress - expectedProgress)
                     * totalExpectedMinutes * 0.3))
    else if Qltb actualProgress (expectedProgress * 0.9) then
      (behind,
       Math_round ((expectedProgress - actualProgress)
                   * totalExpectedMinutes * 0.3))
    else (on_track, 0) in
  let updatedFinishTime : Date :=
    predictedFinishTime originalPlan + timeAdjustment * 60000 in
  (* Adjust confidence based on actual vs expected *)
  let deviationFactor := Qabs (actualProgress - expectedProgress) in
  let adjustedConfidence :=
    Qmax 20 (inject_Z (overallConfidence originalPlan) - deviationFactor * 30) in
  {| updatedFinishTime := updatedFinishTime;
     adjustedConfidence := Math_round adjustedConfidence;
     status := status |}.

Definition getConfidenceLevel (score : Z) : Confidence :=
  if CONFIDENCE_THRESHOLDS.high <=? score then HIGH
  else if CONFIDENCE_THRESHOLDS.medium <=? score then MEDIUM
  else LOW.

(* ================================================================== *)
(** ** Notions used in the statements *)

(** The low and high ends of the cook time per unit of weight scale, once
    the smoker multiplier and the variance multiplier are applied. *)
Definition cookLo (c : MeatCut) (s : SmokerType) : Q :=
  let b := BASE_COOK_TIMES c in
  let f := SMOKER_MULTIPLIERS s in
  (multiplier f *
   ((BaseTime.min b + BaseTime.max b) / 2
    - (BaseTime.max b - BaseTime.min b) * varianceMultiplier f / 2))%Q.

Definition cookHi (c : MeatCut) (s : SmokerType) : Q :=
  let b := BASE_COOK_TIMES c in
  let f := SMOKER_MULTIPLIERS s in
  (multiplier f *
   ((BaseTime.min b + BaseTime.max b) / 2
    + (BaseTime.max b - BaseTime.min b) * varianceMultiplier f / 2))%Q.

Definition weightScale (c : MeatCut) (w : Q) : Q :=
  if BaseTime.perPound (BASE_COOK_TIMES c) then w else 1%Q.

(** The stall range in closed form. *)
Definition stallRange (wr : WrapMethod) : Range.t :=
  if negb (WrapMethod_eqb wr NONE) then Range.mk 30 120 else Range.mk 60 240.

(** Adjacent phases meet end to start and never step back in time. *)
Fixpoint chained (ps : list PhaseDefinition) : Prop :=
  match ps with
  | p :: (q :: _) as rest =>
      endTime p = startTime q /\ startTime p <= startTime q /\ chained rest
  | _ => True
  end.

Record Segment := { segKey : PhaseKey; segRange : Range.t; segNote : Note }.

Fixpoint layout (T : Date) (segs : list Segment) : list PhaseDefinition :=
  match segs with
  | [] => []
  | sg :: rest =>
      let ps := layout T rest in
      let e := match ps with p :: _ => startTime p | [] => T end in
      mkPhase (segKey sg) (e - Range.max (segRange sg) * 60000) e
        (segRange sg) (segNote sg) :: ps
  end.

Definition layout_start (T : Date) (segs : list Segment) : Date :=
  match layout T segs with p :: _ => startTime p | [] => T end.

Definition cookTimeRangeOf (input : CookPlanInput) : Range.t :=
  calculateBaseCookTime (meatCut input) (weightLbs input) (smokerType input)
    (wrapMethod input) (ambientTempF input) (altitude input).

Definition smoke1RangeOf (input : CookPlanInput) : Range.t :=
  let ct := cookTimeRangeOf input in
  if hasStall (meatCut input)
  then Range.mk (Math_round (inject_Z (Range.min ct) * 0.4))
                (Math_round (inject_Z (Range.max ct) * 0.4))
  else ct.

Definition smoke2RangeOf (input : CookPlanInput) : Range.t :=
  let ct := cookTimeRangeOf input in
  if hasStall (meatCut input)
  then Range.mk (Math_round (inject_Z (Range.min ct) * 0.3))
                (Math_round (inject_Z (Range.max ct) * 0.3))
  else Range.mk 0 0.

Definition wrapped (input : CookPlanInput) : bool :=
  negb (WrapMethod_eqb (wrapMethod input) NONE).

(** The segments between Smoke Phase 1 and Rest. *)
Definition midSegments (input : CookPlanInput) : list Segment :=
  if 0 <? Range.min (smoke2RangeOf input) then
    [ {| segKey := STALL; segRange := stallRange (wrapMethod input);
         segNote := NoteStall STALL_CONFIG.startTempF STALL_CONFIG.endTempF |} ]
    ++ (if wrapped input
        then [ {| segKey := WRAP_DECISION; segRange := Range.mk 0 0;
                  segNote := NoteWrapWhen STALL_CONFIG.startTempF
                               STALL_CONFIG.endTempF |} ]
        else [])
    ++ [ {| segKey := SMOKE_2; segRange := smoke2RangeOf input;
            segNote := if wrapped input
                       then NoteWrappedIn (wrapMethod input)
                       else NoteUnwrapped |} ]
  else [].

Definition segments (input : CookPlanInput) : list Segment :=
  [ {| segKey := PREP; segRange := PREP_TIME_MINUTES; segNote := NotePrep |};
    {| segKey := PREHEAT; segRange := PREHEAT_TIME_MINUTES;
       segNote := NotePreheatTo (smokerTempF input) |};
    {| segKey := SMOKE_1; segRange := smoke1RangeOf input;
       segNote := NoteSmokeAt (smokerTempF input) |} ]
  ++ midSegments input
  ++ [ {| segKey := REST; segRange := REST_TIME_MINUTES (meatCut input);
          segNote := NoteRest (Range.min (REST_TIME_MINUTES (meatCut input)))
                              (Range.max (REST_TIME_MINUTES (meatCut input))) |} ].

(** The total variance of the finish time, in minutes. *)
Definition totalVarianceMinutesOf (input : CookPlanInput) : Z :=
  (Range.max (cookTimeRangeOf input) - Range.min (cookTimeRangeOf input))
  + match calculateStallDuration (meatCut input) (wrapMethod input) with
    | Some stallDuration => Range.max stallDuration - Range.min stallDuration
    | None => 0
    end.

Definition sound_range (r : Range.t) : Prop :=
  0 <= Range.min r /\ Range.min r <= Range.max r.

(** Minutes from the start of the first segment to the end of the last. *)
Fixpoint totalMax (segs : list Segment) : Z :=
  match segs with
  | [] => 0
  | sg :: rest => Range.max (segRange sg) + totalMax rest
  end.

(** The instant the Rest phase ends: half an hour before the serve time. *)
Definition restEndOf (input : CookPlanInput) : Date :=
  serveTime input - 30 * 60000.

Definition has_phase (k : PhaseKey) (plan : CookPlan) : bool :=
  existsb (fun p => String.eqb (name p) (PHASE_NAMES k)) (phases plan).

Definition with_smokerTempF (t : Q) (i : CookPlanInput) : CookPlanInput :=
  {| meatCut := meatCut i; weightLbs := weightLbs i;
     smokerType := smokerType i; smokerTempF := t;
     wrapMethod := wrapMethod i; serveTime := serveTime i;
     ambientTempF := ambientTempF i; altitude := altitude i |}.

(** Everything of a phase but its note. *)
Definition phase_schedule (p : PhaseDefinition) :=
  (name p, startTime p, endTime p, durationRange p, confidence p, order p).

Definition with_weightLbs (w : Q) (i : CookPlanInput) : CookPlanInput :=
  {| meatCut := meatCut i; weightLbs := w;
     smokerType := smokerType i; smokerTempF := smokerTempF i;
     wrapMethod := wrapMethod i; serveTime := serveTime i;
     ambientTempF := ambientTempF i; altitude := altitude i |}.


Definition totalExpectedMinutesOf (plan : CookPlan) : Q :=
  inject_Z (latest (confidenceRange plan) - recommendedStartTime plan) / 60000.

Definition expectedProgressOf (plan : CookPlan) (elapsedMinutes : Q) : Q :=
  elapsedMinutes / totalExpectedMinutesOf plan.

Definition actualProgressOf (currentTempF targetTempF : Q) : Q :=
  currentTempF / targetTempF.

(** Sample requests: a 12 lb brisket on a pellet smoker at 225 F, ambient
    70 F at sea level, unwrapped and wrapped in butcher paper; and a rack of
    baby back ribs on an offset smoker, wrapped in foil. *)
Definition brisketInput : CookPlanInput :=
  {| meatCut := BRISKET; weightLbs := 12; smokerType := PELLET;
     smokerTempF := 225; wrapMethod := NONE; serveTime := 1000000000;
     ambientTempF := Some 70%Q; altitude := Some 0%Q |}.

Definition wrappedBrisketInput : CookPlanInput :=
  {| meatCut := BRISKET; weightLbs := 12; smokerType := PELLET;
     smokerTempF := 225; wrapMethod := BUTCHER_PAPER; serveTime := 1000000000;
     ambientTempF := Some 70%Q; altitude := Some 0%Q |}.

Definition ribsInput : CookPlanInput :=
  {| meatCut := BABY_BACK_RIBS; weightLbs := 3; smokerType := OFFSET;
     smokerTempF := 250; wrapMethod := FOIL; serveTime := 1000000000;
     ambientTempF := None; altitude := None |}.

(* ================================================================== *)
(** ** Around the planner: the cook route and the views of a plan *)

Definition with_wrapMethod (w : WrapMethod) (i : CookPlanInput) : CookPlanInput :=
  {| meatCut := meatCut i; weightLbs := weightLbs i;
     smokerType := smokerType i; smokerTempF := smokerTempF i;
     wrapMethod := w; serveTime := serveTime i;
     ambientTempF := ambientTempF i; altitude := altitude i |}.

Definition with_serveTime (t : Date) (i : CookPlanInput) : CookPlanInput :=
  {| meatCut := meatCut i; weightLbs := weightLbs i;
     smokerType := smokerType i; smokerTempF := smokerTempF i;
     wrapMethod := wrapMethod i; serveTime := t;
     ambientTempF := ambientTempF i; altitude := altitude i |}.

(** A phase moved by [d] milliseconds. *)
Definition shift_phase (d : Z) (p : PhaseDefinition) : PhaseDefinition :=
  {| name := name p; startTime := startTime p + d; endTime := endTime p + d;
     durationRange := durationRange p; confidence := confidence p;
     notes := notes p; order := order p |}.

(** [DEFAULT_TARGET_TEMPS] of [constants/index.ts]. *)
Definition DEFAULT_TARGET_TEMPS (c : MeatCut) : Q :=
  match c with
  | BRISKET => 203
  | PORK_SHOULDER => 205
  | SPARE_RIBS => 195
  | BABY_BACK_RIBS => 195
  | BEEF_RIBS => 203
  end.

(** [targetTempF: z.number ().min (150).max (220).optional ()] of
    [createCookSchema]. *)
Definition targetTempSchema (targetTempF : option Q) : bool :=
  z_optional (z_number 150 220) targetTempF.

(** [targetTempF || DEFAULT_TARGET_TEMPS[meatCut]] of the create route: an
    absent or zero target falls back to the default of the cut. *)
Definition finalTargetTemp (targetTempF : option Q) (meatCut : MeatCut) : Q :=
  match targetTempF with
  | Some t => if Qeq_bool t 0 then DEFAULT_TARGET_TEMPS meatCut else t
  | None => DEFAULT_TARGET_TEMPS meatCut
  end.

(** The string value of a [Confidence] member. *)
Definition Confidence_value (c : Confidence) : string :=
  match c with
  | HIGH => "HIGH"
  | MEDIUM => "MEDIUM"
  | LOW => "LOW"
  end.

(** [confidenceColors] and [getConfidenceColor] of [mobile/src/utils/theme.ts]. *)
Definition confidenceColors (c : Confidence) : string :=
  match c with
  | HIGH => "#22C55E"
  | MEDIUM => "#EAB308"
  | LOW => "#F44336"
  end.

Definition getConfidenceColor (confidence : Q) : string :=
  if Qle_bool 70 confidence then confidenceColors HIGH
  else if Qle_bool 40 confidence then confidenceColors MEDIUM
  else confidenceColors LOW.

(** [getConfidenceLabel] of [mobile/src/components/ConfidenceIndicator.tsx]. *)
Definition getConfidenceLabel (value : Q) : string :=
  if Qle_bool 70 value then "HIGH"
  else if Qle_bool 40 value then "MEDIUM"
  else "LOW".

(** [Array.prototype.findIndex]: the first index whose element passes the
    test, or [-1]. *)
Fixpoint findIndex_from {A} (f : A -> bool) (l : list A) (i : Z) : Z :=
  match l with
  | [] => -1
  | x :: rest => if f x then i else findIndex_from f rest (i + 1)
  end.

Definition findIndex {A} (f : A -> bool) (l : list A) : Z :=
  findIndex_from f l 0.

Inductive PhaseStatus := completed | current | upcoming.

(** [p.name === currentPhase], for an optional [currentPhase]. *)
Definition is_current (currentPhase : option string) (p : PhaseDefinition) : bool :=
  match currentPhase with
  | Some c => String.eqb (name p) c
  | None => false
  end.

(** [getPhaseStatus] of [mobile/src/components/Timeline.tsx]. *)
Definition getPhaseStatus (phases : list PhaseDefinition)
    (currentPhase : option string) (phase : PhaseDefinition) (index : Z)
    : PhaseStatus :=
  if is_current currentPhase phase then current
  else
    let currentIndex := findIndex (is_current currentPhase) phases in
    if currentIndex =? -1 then upcoming
    else if index <? currentIndex then completed else upcoming.

(** The statuses the timeline shows, phase by phase:
    [phases.map ((phase, index) => getPhaseStatus (phase, index))]. *)
Fixpoint statuses_from (phases : list PhaseDefinition)
    (currentPhase : option string) (ps : list PhaseDefinition) (index : Z)
    : list PhaseStatus :=
  match ps with
  | [] => []
  | p :: rest =>
      getPhaseStatus phases currentPhase p index
      :: statuses_from phases currentPhase rest (index + 1)
  end.

Definition timeline_statuses (phases : list PhaseDefinition)
    (currentPhase : option string) : list PhaseStatus :=
  statuses_from phases currentPhase phases 0.

(** [adjustTemp] of [mobile/src/components/TempLogger.tsx], as the new
    value of the internal temperature:
    [Math.max (32, Math.min (220, prev + amount))]. *)
Definition adjustTemp (prev amount : Q) : Q :=
  Qmax 32 (Qmin 220 (prev + amount)).

(** One range no longer than another, at both ends. *)
Definition range_le (r1 r2 : Range.t) : Prop :=
  Range.min r1 <= Range.min r2 /\ Range.max r1 <= Range.max r2.



(** Minutes allotted to a list of phases: the sum of their maximum
    durations. *)
Fixpoint sumMax (ps : list PhaseDefinition) : Z :=
  match ps with
  | [] => 0
  | p :: rest => Range.max (durationRange p) + sumMax rest
  end.

(* ================================================================== *)
(** ** Rounding *)

Lemma Math_round_mono (x y : Q) : (x <= y)%Q -> Math_round x <= Math_round y.
Proof.
  intros Hxy. unfold Math_round. apply Qfloor_resp_le. lra.
Qed.

Lemma Math_round_comp (x y : Q) : (x == y)%Q -> Math_round x = Math_round y.
Proof.
  intros Hxy. unfold Math_round. apply Qfloor_comp. lra.
Qed.

Lemma Math_round_inject (z : Z) : Math_round (inject_Z z) = z.
Proof.
  unfold Math_round.
  assert (Hlo : z <= Qfloor (inject_Z z + (1 # 2))).
  { rewrite <- (Qfloor_Z z) at 1. apply Qfloor_resp_le. lra. }
  assert (Hhi : Qfloor (inject_Z z + (1 # 2)) < z + 1).
  { rewrite Zlt_Qlt.
    apply Qle_lt_trans with (inject_Z z + (1 # 2))%Q; [apply Qfloor_le|].
    rewrite inject_Z_plus. change (inject_Z 1) with 1%Q. lra. }
  lia.
Qed.

Lemma Math_round_lower (z : Z) (x : Q) : (inject_Z z <= x)%Q -> z <= Math_round x.
Proof.
  intros H. rewrite <- (Math_round_inject z). now apply Math_round_mono.
Qed.


(** [Math.round x] is within half a unit of [x]. *)
Lemma Math_round_close (x : Q) :
  (x - (1 # 2) < inject_Z (Math_round x) /\ inject_Z (Math_round x) <= x + (1 # 2))%Q.
Proof.
  unfold Math_round. split.
  - pose proof (Qlt_floor (x + (1 # 2))) as H.
    rewrite inject_Z_plus in H. change (inject_Z 1) with 1%Q in H. lra.
  - apply Qfloor_le.
Qed.

Lemma Qltb_lt (x y : Q) : Qltb x y = true <-> (x < y)%Q.
Proof.
  unfold Qltb. rewrite negb_true_iff. split.
  - intros H. apply Qnot_le_lt. intros Hle.
    apply Qle_bool_iff in Hle. congruence.
  - intros H. destruct (Qle_bool y x) eqn:E; [|reflexivity].
    apply Qle_bool_iff in E. lra.
Qed.

Lemma Qltb_ge (x y : Q) : Qltb x y = false <-> (y <= x)%Q.
Proof.
  unfold Qltb. rewrite negb_false_iff. apply Qle_bool_iff.
Qed.

(* ================================================================== *)
(** ** The cook-time range in closed form *)

Lemma getEnvironmentalMultiplier_bounds (a h : option Q) :
  (0.92 <= getEnvironmentalMultiplier a h /\
   getEnvironmentalMultiplier a h <= 1.232)%Q.
Proof.
  unfold getEnvironmentalMultiplier,
    ENVIRONMENTAL_MULTIPLIERS.coldAmbient, ENVIRONMENTAL_MULTIPLIERS.hotAmbient,
    ENVIRONMENTAL_MULTIPLIERS.highAltitude.
  destruct a as [a|], h as [h|];
    repeat match goal with |- context [if ?b then _ else _] => destruct b end;
    cbv zeta; split; lra.
Qed.

Lemma calculateBaseCookTime_closed c w s wr a h :
  calculateBaseCookTime c w s wr a h =
  Range.mk
    (Math_round (cookLo c s * weightScale c w * getEnvironmentalMultiplier a h))
    (Math_round (cookHi c s * weightScale c w * getEnvironmentalMultiplier a h)).
Proof.
  unfold calculateBaseCookTime, cookLo, cookHi, weightScale.
  generalize (getEnvironmentalMultiplier a h) as e. intros e.
  destruct c, s; cbn [BASE_COOK_TIMES SMOKER_MULTIPLIERS BaseTime.perPound
    BaseTime.min BaseTime.max multiplier varianceMultiplier];
    f_equal; apply Math_round_comp; field.
Qed.

Lemma cookLo_bounds c s : (56 <= cookLo c s /\ cookLo c s <= cookHi c s)%Q.
Proof.
  destruct c, s; vm_compute; split; discriminate.
Qed.

Lemma weightScale_bounds c w :
  (0.5 <= w)%Q -> (0.5 <= weightScale c w)%Q.
Proof.
  intros Hw. unfold weightScale. destruct (BaseTime.perPound _); lra.
Qed.


(** Validated weights, as propositions on [Q]. *)
Lemma planCookSchema_weight input :
  planCookSchema input = true ->
  (0.5 <= weightLbs input /\ weightLbs input <= 30)%Q.
Proof.
  unfold planCookSchema, z_number. intros H.
  repeat (apply andb_prop in H; destruct H as [H ?]).
  split; now apply Qle_bool_iff.
Qed.

Section CookTimeRange.
Variables (c : MeatCut) (s : SmokerType) (wr : WrapMethod) (a h : option Q).

Lemma cook_raw_lower w :
  (0.5 <= w)%Q ->
  (25.76 <= cookLo c s * weightScale c w * getEnvironmentalMultiplier a h)%Q.
Proof.
  intros Hw.
  pose proof (cookLo_bounds c s) as [Hlo _].
  pose proof (weightScale_bounds c w Hw) as Hs.
  pose proof (getEnvironmentalMultiplier_bounds a h) as [He _].
  assert (H1 : (56 * 0.5 <= cookLo c s * weightScale c w)%Q)
    by (apply Qmult_le_compat_nonneg; split; lra).
  assert (H2 : (56 * 0.5 * 0.92
                <= cookLo c s * weightScale c w
                   * getEnvironmentalMultiplier a h)%Q)
    by (apply Qmult_le_compat_nonneg; split; lra).
  lra.
Qed.

Lemma cook_raw_le w :
  (0.5 <= w)%Q ->
  (cookLo c s * weightScale c w * getEnvironmentalMultiplier a h
   <= cookHi c s * weightScale c w * getEnvironmentalMultiplier a h)%Q.
Proof.
  intros Hw.
  pose proof (cookLo_bounds c s) as [Hlo Hle].
  pose proof (weightScale_bounds c w Hw) as Hs.
  pose proof (getEnvironmentalMultiplier_bounds a h) as [He _].
  apply Qmult_le_compat_r; [|lra].
  apply Qmult_le_compat_r; lra.
Qed.


(** The rounded cook-time range for a validated weight: at least 26
    minutes at the low end, and ordered. *)
Lemma calculateBaseCookTime_range w :
  (0.5 <= w)%Q ->
  26 <= Range.min (calculateBaseCookTime c w s wr a h)
  /\ Range.min (calculateBaseCookTime c w s wr a h)
     <= Range.max (calculateBaseCookTime c w s wr a h).
Proof.
  intros Hw. rewrite calculateBaseCookTime_closed. cbn [Range.min Range.max].
  split.
  - change 26 with (Math_round 25.76). apply Math_round_mono.
    now apply cook_raw_lower.
  - apply Math_round_mono. now apply cook_raw_le.
Qed.

End CookTimeRange.

(** The 40% and 30% shares of a whole number of minutes. *)
Lemma share_mono (f : Q) (m n : Z) :
  (0 <= f)%Q -> m <= n ->
  Math_round (inject_Z m * f) <= Math_round (inject_Z n * f).
Proof.
  intros Hf Hmn. apply Math_round_mono.
  apply Qmult_le_compat_r; [|exact Hf]. now rewrite <- Zle_Qle.
Qed.

Lemma share_nonneg (f : Q) (m : Z) :
  (0 <= f)%Q -> 0 <= m -> 0 <= Math_round (inject_Z m * f).
Proof.
  intros Hf Hm.
  replace 0 with (Math_round (inject_Z 0 * f)) at 1.
  - now apply share_mono.
  - assert (Math_round (inject_Z 0 * f) = Math_round 0) as ->
      by (apply Math_round_comp; change (inject_Z 0) with 0%Q; ring).
    reflexivity.
Qed.

Lemma share30_pos (m : Z) : 26 <= m -> 0 < Math_round (inject_Z m * 0.3).
Proof.
  intros Hm.
  apply Z.lt_le_trans with (Math_round (inject_Z 26 * 0.3)); [reflexivity|].
  apply share_mono; [lra | exact Hm].
Qed.

Lemma calculateStallDuration_closed c wr :
  calculateStallDuration c wr =
  if hasStall c then Some (stallRange wr) else None.
Proof.
  destruct c, wr; reflexivity.
Qed.

(* ================================================================== *)
(** ** Timelines *)

Lemma chained_nth ps :
  chained ps ->
  forall i p q,
    nth_error ps i = Some p -> nth_error ps (S i) = Some q ->
    endTime p = startTime q /\ startTime p <= startTime q.
Proof.
  induction ps as [|p0 [|q0 rest] IH]; intros Hc i p q Hp Hq.
  - destruct i; discriminate.
  - destruct i as [|[|i]]; discriminate.
  - destruct Hc as (He & Hs & Hrest).
    destruct i as [|i].
    + cbn in Hp, Hq. injection Hp as <-. injection Hq as <-. now split.
    + apply (IH Hrest i); assumption.
Qed.

Lemma assign_order_from_chained ps : forall k,
  chained ps -> chained (assign_order_from k ps).
Proof.
  induction ps as [|p0 [|q0 rest] IH]; intros k Hc; cbn; auto.
  destruct Hc as (He & Hs & Hrest).
  repeat split; auto. apply (IH (k + 1) Hrest).
Qed.

(** *** The plan as a backward layout of segments

    Every phase the planner prepends ends where the phase placed before it
    starts, and starts [durationRange.max] minutes earlier.  The plan is thus
    determined by the list of its segments and the instant the last one
    ends. *)

Lemma generateCookPlan_layout input :
  let T := serveTime input - 30 * 60000 in
  let finish := T - Range.max (REST_TIME_MINUTES (meatCut input)) * 60000 in
  generateCookPlan input =
  {| phases := assign_order (layout T (segments input));
     predictedFinishTime := finish;
     confidenceRange :=
       {| earliest := finish - totalVarianceMinutesOf input * 30000;
          latest := finish + totalVarianceMinutesOf input * 30000 |};
     overallConfidence :=
       calculateOverallConfidence (layout T (segments input)) (smokerType input);
     recommendedStartTime := layout_start T (segments input) |}.
Proof.
  unfold generateCookPlan, segments, midSegments, totalVarianceMinutesOf,
    smoke1RangeOf, smoke2RangeOf, wrapped, layout_start, cookTimeRangeOf.
  rewrite !calculateStallDuration_closed.
  match goal with
  | |- context [calculateBaseCookTime ?c ?w ?s ?wr ?a ?h] =>
      generalize (calculateBaseCookTime c w s wr a h) as ct
  end.
  intros ct.
  destruct (hasStall (meatCut input)).
  - cbv beta iota zeta.
    destruct (0 <? Range.min _);
      destruct (negb (WrapMethod_eqb (wrapMethod input) NONE));
      try reflexivity.
    (* the Wrap Decision marker: [start - 0 * 60000] is [start] *)
    cbn [layout app segKey segRange segNote Range.max mkPhase startTime].
    change (0 * 60000) with 0. rewrite !Z.sub_0_r. reflexivity.
  - reflexivity.
Qed.

(** The three shapes of a plan: with a stall and a wrap decision, with a
    stall only, without a stall. *)
Ltac by_shape input :=
  destruct (0 <? Range.min (smoke2RangeOf input));
  [destruct (wrapped input)|].

(** *** Properties of a layout *)

Lemma layout_cons T sg rest :
  layout T (sg :: rest) =
  mkPhase (segKey sg)
    (layout_start T rest - Range.max (segRange sg) * 60000) (layout_start T rest)
    (segRange sg) (segNote sg) :: layout T rest.
Proof. reflexivity. Qed.

Lemma layout_start_cons T sg rest :
  layout_start T (sg :: rest) =
  layout_start T rest - Range.max (segRange sg) * 60000.
Proof. reflexivity. Qed.

Lemma layout_chained T segs :
  Forall (fun sg => sound_range (segRange sg)) segs ->
  chained (layout T segs).
Proof.
  induction segs as [|sg rest IH]; intros Hall; [exact I|].
  inversion Hall as [|? ? [Hmin Hle] Hrest]; subst.
  rewrite layout_cons.
  destruct rest as [|sg' rest'].
  - exact I.
  - specialize (IH Hrest). rewrite layout_cons in IH |- *.
    cbn [chained mkPhase startTime endTime]. repeat split.
    + rewrite layout_start_cons. lia.
    + exact IH.
Qed.

Lemma layout_lengths T segs :
  Forall (fun sg => sound_range (segRange sg)) segs ->
  Forall (fun p => startTime p <= endTime p) (layout T segs).
Proof.
  induction 1 as [|sg rest [Hmin Hle] _ IH]; [constructor|].
  rewrite layout_cons. constructor; [|exact IH].
  cbn [mkPhase startTime endTime]. lia.
Qed.

Lemma layout_names T segs :
  map name (layout T segs) = map (fun sg => PHASE_NAMES (segKey sg)) segs.
Proof.
  induction segs as [|sg rest IH]; [reflexivity|].
  rewrite layout_cons. cbn [map mkPhase name]. now rewrite IH.
Qed.

Lemma layout_ranges T segs :
  map durationRange (layout T segs) = map segRange segs.
Proof.
  induction segs as [|sg rest IH]; [reflexivity|].
  rewrite layout_cons. cbn [map mkPhase durationRange]. now rewrite IH.
Qed.

Lemma layout_confidences T segs :
  map confidence (layout T segs) =
  map (fun sg => PHASE_CONFIDENCE (segKey sg)) segs.
Proof.
  induction segs as [|sg rest IH]; [reflexivity|].
  rewrite layout_cons. cbn [map mkPhase confidence]. now rewrite IH.
Qed.

Lemma layout_notes T segs :
  map notes (layout T segs) = map segNote segs.
Proof.
  induction segs as [|sg rest IH]; [reflexivity|].
  rewrite layout_cons. cbn [map mkPhase notes]. now rewrite IH.
Qed.

Lemma layout_start_total T segs :
  layout_start T segs = T - totalMax segs * 60000.
Proof.
  induction segs as [|sg rest IH].
  - cbn. lia.
  - rewrite layout_start_cons, IH. cbn [totalMax]. lia.
Qed.

Lemma totalMax_app xs ys : totalMax (xs ++ ys) = totalMax xs + totalMax ys.
Proof.
  induction xs as [|x xs IH]; cbn [app totalMax]; lia.
Qed.

(** A layout depends on the notes of its segments only through [notes]. *)
Lemma layout_times T segs segs' :
  map segKey segs = map segKey segs' ->
  map segRange segs = map segRange segs' ->
  map (fun p => (name p, startTime p, endTime p, durationRange p, confidence p))
      (layout T segs) =
  map (fun p => (name p, startTime p, endTime p, durationRange p, confidence p))
      (layout T segs').
Proof.
  revert segs'.
  induction segs as [|sg rest IH]; intros [|sg' rest'] Hk Hr;
    try discriminate; [reflexivity|].
  injection Hk as Hk0 Hk. injection Hr as Hr0 Hr.
  specialize (IH rest' Hk Hr).
  rewrite !layout_cons. cbn [map mkPhase name startTime endTime durationRange confidence].
  assert (Hs : layout_start T rest = layout_start T rest').
  { unfold layout_start.
    destruct (layout T rest) as [|p ps], (layout T rest') as [|p' ps'];
      try discriminate; [reflexivity|].
    cbn [map] in IH. now injection IH. }
  now rewrite IH, Hk0, Hr0, Hs.
Qed.

(** *** Order indices *)

Lemma assign_order_from_map {A} (f : PhaseDefinition -> A) :
  (forall p k,
      f {| name := name p; startTime := startTime p; endTime := endTime p;
           durationRange := durationRange p; confidence := confidence p;
           notes := notes p; order := Some k |} = f p) ->
  forall ps k, map f (assign_order_from k ps) = map f ps.
Proof.
  intros Hf. induction ps as [|p ps IH]; intros k; [reflexivity|].
  cbn [assign_order_from map]. now rewrite Hf, IH.
Qed.

Lemma assign_order_from_length ps : forall k,
  List.length (assign_order_from k ps) = List.length ps.
Proof.
  induction ps as [|p ps IH]; intros k; cbn; [reflexivity|]. now rewrite IH.
Qed.

(** The order index of a phase is its position in the list. *)
Lemma assign_order_from_nth ps : forall k i p,
  nth_error (assign_order_from k ps) i = Some p ->
  order p = Some (k + Z.of_nat i).
Proof.
  induction ps as [|p0 ps IH]; intros k i p Hp.
  - destruct i; discriminate.
  - destruct i as [|i]; cbn in Hp.
    + injection Hp as <-. cbn. f_equal. lia.
    + rewrite (IH _ _ _ Hp). f_equal. lia.
Qed.

(* ================================================================== *)
(** ** Plans of validated inputs *)

Lemma hasStall_In c : hasStall c = true <-> In c STALL_CONFIG.affectedCuts.
Proof.
  unfold hasStall, STALL_CONFIG.affectedCuts. cbn [existsb In].
  destruct c; cbn; intuition (discriminate || auto).
Qed.

Lemma stallRange_sound wr : sound_range (stallRange wr).
Proof.
  destruct wr; unfold sound_range; cbn; lia.
Qed.

Lemma REST_TIME_MINUTES_sound c : sound_range (REST_TIME_MINUTES c).
Proof.
  destruct c; unfold sound_range; cbn; lia.
Qed.

Section ValidInput.
Variable input : CookPlanInput.
Hypothesis Hvalid : planCookSchema input = true.

Lemma cookTimeRangeOf_valid :
  26 <= Range.min (cookTimeRangeOf input)
  /\ Range.min (cookTimeRangeOf input) <= Range.max (cookTimeRangeOf input).
Proof.
  apply calculateBaseCookTime_range.
  now destruct (planCookSchema_weight input Hvalid).
Qed.

Lemma smoke1RangeOf_sound : sound_range (smoke1RangeOf input).
Proof.
  destruct cookTimeRangeOf_valid as [Hlo Hle].
  unfold smoke1RangeOf, sound_range.
  destruct (hasStall (meatCut input)); cbn [Range.min Range.max].
  - split; [apply share_nonneg | apply share_mono]; lra || lia.
  - lia.
Qed.

Lemma smoke2RangeOf_sound : sound_range (smoke2RangeOf input).
Proof.
  destruct cookTimeRangeOf_valid as [Hlo Hle].
  unfold smoke2RangeOf, sound_range.
  destruct (hasStall (meatCut input)); cbn [Range.min Range.max].
  - split; [apply share_nonneg | apply share_mono]; lra || lia.
  - lia.
Qed.

(** For a validated weight Smoke Phase 2 is never empty on a cut that
    stalls, so the middle segments are there exactly for those cuts. *)
Lemma smoke2_guard :
  (0 <? Range.min (smoke2RangeOf input)) = hasStall (meatCut input).
Proof.
  destruct cookTimeRangeOf_valid as [Hlo Hle].
  unfold smoke2RangeOf.
  destruct (hasStall (meatCut input)); cbn [Range.min]; [|reflexivity].
  apply Z.ltb_lt. now apply share30_pos.
Qed.

Lemma segments_sound :
  Forall (fun sg => sound_range (segRange sg)) (segments input).
Proof.
  unfold segments, midSegments.
  repeat first
    [ apply Forall_nil
    | apply Forall_cons
    | apply Forall_app; split
    | match goal with |- Forall _ (if ?b then _ else _) => destruct b end ];
    cbn [segRange];
    auto using smoke1RangeOf_sound, smoke2RangeOf_sound, stallRange_sound,
      REST_TIME_MINUTES_sound;
    unfold sound_range; cbn; lia.
Qed.
End ValidInput.

Lemma phases_layout input :
  phases (generateCookPlan input) =
  assign_order (layout (restEndOf input) (segments input)).
Proof.
  now rewrite generateCookPlan_layout.
Qed.

Lemma chained_ends ps :
  chained ps ->
  Forall (fun p => startTime p <= endTime p) ps ->
  forall first lst,
    nth_error ps 0 = Some first ->
    nth_error ps (List.length ps - 1) = Some lst ->
    startTime first <= endTime lst.
Proof.
  induction ps as [|p0 [|q0 rest] IH]; intros Hc Hall first lst Hf Hl.
  - discriminate.
  - cbn in Hf, Hl. injection Hf as <-. injection Hl as <-.
    now inversion Hall.
  - destruct Hc as (_ & Hs & Hrest). inversion Hall as [|? ? _ Hall']; subst.
    cbn in Hf. injection Hf as <-.
    assert (Hq : startTime q0 <= endTime lst).
    { apply (IH Hrest Hall' q0 lst); [reflexivity|].
      cbn [List.length] in Hl |- *.
      replace (S (S (List.length rest)) - 1)%nat with (S (List.length rest)) in Hl by lia.
      replace (S (List.length rest) - 1)%nat with (List.length rest) by lia.
      exact Hl. }
    lia.
Qed.

Lemma assign_order_from_lengths ps k :
  Forall (fun p => startTime p <= endTime p) ps ->
  Forall (fun p => startTime p <= endTime p) (assign_order_from k ps).
Proof.
  intros H. revert k. induction H as [|p ps Hp _ IH]; intros k; cbn; auto.
Qed.

(** C1: for every input within the validation ranges, adjacent phases of
    the returned list meet (the earlier phase ends exactly when the later
    one starts, instantaneous phases included), start times never decrease
    along the list, and the last phase does not end before the first one
    starts. *)
Theorem phases_contiguous (input : CookPlanInput) :
  planCookSchema input = true ->
  let ps := phases (generateCookPlan input) in
  (forall i p q,
      nth_error ps i = Some p -> nth_error ps (S i) = Some q ->
      endTime p = startTime q /\ startTime p <= startTime q)
  /\ (forall first lst,
      nth_error ps 0 = Some first ->
      nth_error ps (List.length ps - 1) = Some lst ->
      startTime first <= endTime lst).
Proof.
  intros Hvalid ps. subst ps. rewrite phases_layout.
  pose proof (segments_sound input Hvalid) as Hsound.
  split.
  - apply chained_nth, assign_order_from_chained, layout_chained, Hsound.
  - apply chained_ends.
    + apply assign_order_from_chained, layout_chained, Hsound.
    + apply assign_order_from_lengths, layout_lengths, Hsound.
Qed.

(** *** Which phases a plan has *)

Lemma existsb_name (f : string -> bool) ps :
  existsb (fun p => f (name p)) ps = existsb f (map name ps).
Proof.
  induction ps as [|p ps IH]; cbn; [reflexivity|]. now rewrite IH.
Qed.

Lemma phase_names input :
  map name (phases (generateCookPlan input)) =
  map (fun sg => PHASE_NAMES (segKey sg)) (segments input).
Proof.
  rewrite phases_layout. unfold assign_order.
  rewrite assign_order_from_map by reflexivity.
  apply layout_names.
Qed.

Lemma WrapMethod_eqb_eq a b : WrapMethod_eqb a b = true <-> a = b.
Proof.
  destruct a, b; cbn; split; intros H; congruence.
Qed.

(** C4: for every validated input the plan has a Stall Window exactly when
    the cut is in the stall-affected set, and a Wrap Decision exactly when
    moreover the wrap method is not NONE; for a cut outside the set the
    phases are Prep, Preheat, one Smoke Phase 1 and Rest, whatever the wrap
    method. *)
Theorem stall_and_wrap_phases (input : CookPlanInput) :
  planCookSchema input = true ->
  let plan := generateCookPlan input in
  (has_phase STALL plan = true <-> In (meatCut input) STALL_CONFIG.affectedCuts)
  /\ (has_phase WRAP_DECISION plan = true <->
      wrapMethod input <> NONE /\ In (meatCut input) STALL_CONFIG.affectedCuts)
  /\ (~ In (meatCut input) STALL_CONFIG.affectedCuts ->
      map name (phases plan) =
      [PHASE_NAMES PREP; PHASE_NAMES PREHEAT; PHASE_NAMES SMOKE_1;
       PHASE_NAMES REST]).
Proof.
  intros Hvalid plan. subst plan. unfold has_phase.
  rewrite (existsb_name (fun n => String.eqb n (PHASE_NAMES STALL))),
    (existsb_name (fun n => String.eqb n (PHASE_NAMES WRAP_DECISION))),
    phase_names.
  unfold segments, midSegments. rewrite (smoke2_guard input Hvalid).
  rewrite <- hasStall_In. unfold wrapped.
  assert (Hw : negb (WrapMethod_eqb (wrapMethod input) NONE) = true
               <-> wrapMethod input <> NONE).
  { rewrite negb_true_iff, <- not_true_iff_false.
    now rewrite WrapMethod_eqb_eq. }
  destruct (hasStall (meatCut input));
    destruct (negb (WrapMethod_eqb (wrapMethod input) NONE));
    cbn; intuition congruence.
Qed.

Lemma stall_and_wrap_phases_witness :
  planCookSchema wrappedBrisketInput = true
  /\ has_phase STALL (generateCookPlan wrappedBrisketInput) = true
  /\ has_phase WRAP_DECISION (generateCookPlan wrappedBrisketInput) = true.
Proof.
  destruct (stall_and_wrap_phases wrappedBrisketInput eq_refl) as (Hs & Hw & _).
  split; [reflexivity|]. split.
  - apply Hs. cbn. auto.
  - apply Hw. split; [discriminate | cbn; auto].
Defined.

Lemma rest_phase_start input r :
  In r (phases (generateCookPlan input)) ->
  name r = PHASE_NAMES REST ->
  startTime r = predictedFinishTime (generateCookPlan input).
Proof.
  rewrite generateCookPlan_layout. cbv zeta.
  cbn [phases predictedFinishTime].
  unfold segments, midSegments, assign_order.
  intros Hr Hn.
  by_shape input;
    cbn [app layout assign_order_from mkPhase segKey segRange segNote
         startTime In] in Hr;
    repeat (destruct Hr as [<-|Hr];
            [cbn in Hn; first [discriminate Hn | reflexivity]|]);
    contradiction.
Qed.

Lemma rest_phase_exists input :
  exists r, In r (phases (generateCookPlan input)) /\ name r = PHASE_NAMES REST.
Proof.
  assert (H : In (PHASE_NAMES REST) (map name (phases (generateCookPlan input)))).
  { rewrite phase_names. unfold segments. rewrite !map_app.
    apply in_or_app. right. apply in_or_app. right. now left. }
  apply in_map_iff in H as (r & Hn & Hr). now exists r.
Qed.

Lemma first_phase_start input :
  exists p, nth_error (phases (generateCookPlan input)) 0 = Some p
    /\ name p = PHASE_NAMES PREP
    /\ startTime p = recommendedStartTime (generateCookPlan input).
Proof.
  rewrite generateCookPlan_layout. cbv zeta.
  cbn [phases recommendedStartTime].
  unfold segments, assign_order. cbn [app].
  rewrite layout_cons, layout_start_cons.
  cbn [assign_order_from nth_error mkPhase name startTime segKey segRange].
  eexists. split; [reflexivity|]. split; reflexivity.
Qed.

(** C7: the predicted finish time is the start of the Rest phase, and the
    recommended start time is the start of the first phase, Prep & Trim. *)
Theorem finish_and_start_times (input : CookPlanInput) :
  let plan := generateCookPlan input in
  (exists r, In r (phases plan) /\ name r = PHASE_NAMES REST)
  /\ (forall r, In r (phases plan) -> name r = PHASE_NAMES REST ->
        startTime r = predictedFinishTime plan)
  /\ (exists p, nth_error (phases plan) 0 = Some p
        /\ name p = PHASE_NAMES PREP
        /\ startTime p = recommendedStartTime plan).
Proof.
  intros plan. subst plan. split; [|split].
  - apply rest_phase_exists.
  - apply rest_phase_start.
  - apply first_phase_start.
Qed.

(** *** The confidence range *)

Lemma totalVarianceMinutesOf_nonneg input :
  planCookSchema input = true -> 0 <= totalVarianceMinutesOf input.
Proof.
  intros Hvalid. unfold totalVarianceMinutesOf.
  destruct (cookTimeRangeOf_valid input Hvalid) as [_ Hle].
  rewrite calculateStallDuration_closed.
  destruct (hasStall (meatCut input)); [|lia].
  destruct (stallRange_sound (wrapMethod input)). lia.
Qed.

(** C2: the confidence range brackets the predicted finish time by half the
    total variance on each side, the total variance in minutes being the
    width of the cook-time range plus the width of the stall range (nothing
    for a cut that does not stall); hence the finish time lies in the
    range.  Times are in milliseconds, 60000 to the minute. *)
Theorem confidence_range_brackets (input : CookPlanInput) :
  planCookSchema input = true ->
  let plan := generateCookPlan input in
  let cookTimeRange :=
    calculateBaseCookTime (meatCut input) (weightLbs input) (smokerType input)
      (wrapMethod input) (ambientTempF input) (altitude input) in
  let totalVariance :=
    (Range.max cookTimeRange - Range.min cookTimeRange)
    + match calculateStallDuration (meatCut input) (wrapMethod input) with
      | Some stall => Range.max stall - Range.min stall
      | None => 0
      end in
  (inject_Z (earliest (confidenceRange plan)) ==
     inject_Z (predictedFinishTime plan) - inject_Z totalVariance / 2 * 60000)%Q
  /\ (inject_Z (latest (confidenceRange plan)) ==
     inject_Z (predictedFinishTime plan) + inject_Z totalVariance / 2 * 60000)%Q
  /\ (~ In (meatCut input) STALL_CONFIG.affectedCuts ->
      calculateStallDuration (meatCut input) (wrapMethod input) = None)
  /\ earliest (confidenceRange plan) <= predictedFinishTime plan
  /\ predictedFinishTime plan <= latest (confidenceRange plan).
Proof.
  intros Hvalid plan ct tv. subst plan.
  pose proof (totalVarianceMinutesOf_nonneg input Hvalid) as Hnn.
  rewrite generateCookPlan_layout. cbv zeta.
  cbn [confidenceRange predictedFinishTime earliest latest].
  fold (cookTimeRangeOf input) in ct.
  change (totalVarianceMinutesOf input) with tv in *.
  generalize dependent tv. intros tv Hnn.
  repeat split.
  - unfold Z.sub. rewrite !inject_Z_plus, !inject_Z_opp, !inject_Z_mult.
    change (inject_Z 30000) with 30000%Q. field.
  - unfold Z.sub. rewrite !inject_Z_plus, !inject_Z_opp, !inject_Z_mult.
    change (inject_Z 30000) with 30000%Q. field.
  - intros Hnot. rewrite calculateStallDuration_closed.
    destruct (hasStall (meatCut input)) eqn:Hs; [|reflexivity].
    apply hasStall_In in Hs. contradiction.
  - lia.
  - lia.
Qed.

(** *** The confidence score *)

Lemma count_confidence_assign_order c ps : forall k,
  count_confidence c (assign_order_from k ps) = count_confidence c ps.
Proof.
  unfold count_confidence.
  induction ps as [|p ps IH]; intros k; [reflexivity|].
  cbn [assign_order_from filter confidence].
  specialize (IH (k + 1)).
  destruct (Confidence_eqb (confidence p) c); cbn [List.length]; lia.
Qed.

(** C6: the overall confidence starts from 100, loses 50 points per unit
    by which the smoker's variance multiplier exceeds 1, 10 points for each
    Low-confidence phase and 5 for each Medium-confidence phase of the plan,
    and is rounded and clamped to the integers from 20 to 100. *)
Theorem overall_confidence_formula (input : CookPlanInput) :
  let plan := generateCookPlan input in
  overallConfidence plan =
    Z.max 20 (Z.min 100 (Math_round
      (100 - (varianceMultiplier (SMOKER_MULTIPLIERS (smokerType input)) - 1) * 50
       - inject_Z (count_confidence LOW (phases plan)) * 10
       - inject_Z (count_confidence MEDIUM (phases plan)) * 5)))
  /\ 20 <= overallConfidence plan <= 100.
Proof.
  intros plan. subst plan. rewrite generateCookPlan_layout. cbv zeta.
  cbn [overallConfidence phases]. unfold assign_order.
  rewrite !count_confidence_assign_order.
  unfold calculateOverallConfidence. split; [reflexivity | lia].
Qed.

(** *** Duration ranges *)

Lemma Forall_map_iff {A B} (f : A -> B) (P : B -> Prop) l :
  Forall P (map f l) <-> Forall (fun x => P (f x)) l.
Proof.
  induction l as [|x l IH]; cbn; split; intros H;
    try constructor; inversion H; subst; auto; now apply IH.
Qed.

(** C9: for every validated input the cook-time range, the stall range and
    the duration range of every phase of the plan have
    [0 <= min <= max], and no phase ends before it starts. *)
Theorem duration_ranges_sound (input : CookPlanInput) :
  planCookSchema input = true ->
  let plan := generateCookPlan input in
  sound_range
    (calculateBaseCookTime (meatCut input) (weightLbs input) (smokerType input)
       (wrapMethod input) (ambientTempF input) (altitude input))
  /\ (forall stall,
        calculateStallDuration (meatCut input) (wrapMethod input) = Some stall ->
        sound_range stall)
  /\ Forall (fun p => sound_range (durationRange p)) (phases plan)
  /\ Forall (fun p => startTime p <= endTime p) (phases plan).
Proof.
  intros Hvalid plan. subst plan.
  pose proof (segments_sound input Hvalid) as Hsound.
  destruct (cookTimeRangeOf_valid input Hvalid) as [Hlo Hle].
  unfold cookTimeRangeOf in Hlo, Hle.
  split; [|split; [|split]].
  - unfold sound_range. lia.
  - intros stall Hstall. rewrite calculateStallDuration_closed in Hstall.
    destruct (hasStall (meatCut input)); [|discriminate].
    injection Hstall as <-. apply stallRange_sound.
  - rewrite phases_layout. unfold assign_order.
    apply (Forall_map_iff durationRange sound_range).
    rewrite assign_order_from_map by reflexivity.
    rewrite layout_ranges. now apply Forall_map_iff.
  - rewrite phases_layout. unfold assign_order.
    apply assign_order_from_lengths, layout_lengths, Hsound.
Qed.

(** *** Independence of the smoker temperature *)

Lemma assign_order_from_schedule ps ps' :
  map (fun p => (name p, startTime p, endTime p, durationRange p, confidence p)) ps =
  map (fun p => (name p, startTime p, endTime p, durationRange p, confidence p)) ps' ->
  forall k,
    map phase_schedule (assign_order_from k ps) =
    map phase_schedule (assign_order_from k ps').
Proof.
  revert ps'.
  induction ps as [|p ps IH]; intros [|p' ps'] H k; try discriminate;
    [reflexivity|].
  cbn [map] in H. injection H as Hn Hs He Hd Hc Hrest.
  cbn [assign_order_from map]. unfold phase_schedule at 1 3.
  cbn [name startTime endTime durationRange confidence order].
  rewrite Hn, Hs, He, Hd, Hc. f_equal. now apply IH.
Qed.

Lemma calculateOverallConfidence_confidences ps ps' s :
  map confidence ps = map confidence ps' ->
  calculateOverallConfidence ps s = calculateOverallConfidence ps' s.
Proof.
  intros H. unfold calculateOverallConfidence.
  assert (Hc : forall c, count_confidence c ps = count_confidence c ps').
  { intros c. unfold count_confidence. f_equal. revert ps' H.
    induction ps as [|p ps IH]; intros [|p' ps'] H; try discriminate;
      [reflexivity|].
    cbn [map] in H. injection H as Hp Hrest. cbn [filter]. rewrite Hp.
    destruct (Confidence_eqb (confidence p') c); cbn [List.length];
      now rewrite (IH ps' Hrest). }
  now rewrite !Hc.
Qed.

Lemma segments_with_smokerTempF t input :
  map segKey (segments (with_smokerTempF t input)) = map segKey (segments input)
  /\ map segRange (segments (with_smokerTempF t input))
     = map segRange (segments input).
Proof.
  unfold segments, midSegments.
  change (smoke2RangeOf (with_smokerTempF t input)) with (smoke2RangeOf input).
  change (wrapped (with_smokerTempF t input)) with (wrapped input).
  by_shape input;
    split; reflexivity.
Qed.

Lemma other_notes_with_smokerTempF t input :
  forall i p q,
    nth_error (phases (generateCookPlan input)) i = Some p ->
    nth_error (phases (generateCookPlan (with_smokerTempF t input))) i = Some q ->
    name p <> PHASE_NAMES SMOKE_1 -> name p <> PHASE_NAMES PREHEAT ->
    notes p = notes q.
Proof.
  rewrite !phases_layout. unfold segments, midSegments, assign_order.
  change (smoke2RangeOf (with_smokerTempF t input)) with (smoke2RangeOf input).
  change (wrapped (with_smokerTempF t input)) with (wrapped input).
  intros i p q H H' Hs Hp.
  by_shape input;
    cbn [app layout assign_order_from mkPhase segKey segRange segNote] in H, H';
    do 8 (destruct i as [|i];
          [ cbn [nth_error] in H, H'; try discriminate H;
            injection H as <-; injection H' as <-;
            cbn in Hs, Hp |- *; congruence
          | ]);
    cbn in H; discriminate.
Qed.

(** C10: two inputs that differ only in [smokerTempF] give plans with the
    same phases in the same order, equal in name, start time, end time,
    duration range, confidence level and order index, and with the same
    predicted finish time, confidence range, overall confidence and
    recommended start time; only the notes of Smoke Phase 1 and Preheat
    Smoker mention the smoker temperature. *)
Theorem smokerTempF_only_in_notes (input : CookPlanInput) (t : Q) :
  let plan := generateCookPlan input in
  let plan' := generateCookPlan (with_smokerTempF t input) in
  map phase_schedule (phases plan') = map phase_schedule (phases plan)
  /\ predictedFinishTime plan' = predictedFinishTime plan
  /\ confidenceRange plan' = confidenceRange plan
  /\ overallConfidence plan' = overallConfidence plan
  /\ recommendedStartTime plan' = recommendedStartTime plan
  /\ (forall i p q,
        nth_error (phases plan) i = Some p ->
        nth_error (phases plan') i = Some q ->
        name p <> PHASE_NAMES SMOKE_1 -> name p <> PHASE_NAMES PREHEAT ->
        notes p = notes q).
Proof.
  intros plan plan'. subst plan plan'.
  destruct (segments_with_smokerTempF t input) as [Hk Hr].
  pose proof (layout_times (restEndOf input) _ _ Hk Hr) as Ht.
  split; [|split; [|split; [|split; [|split]]]].
  - rewrite !phases_layout. unfold assign_order.
    now apply assign_order_from_schedule.
  - rewrite !generateCookPlan_layout; reflexivity.
  - rewrite !generateCookPlan_layout; reflexivity.
  - rewrite !generateCookPlan_layout. cbv zeta. cbn [overallConfidence].
    apply calculateOverallConfidence_confidences.
    rewrite !layout_confidences, <- !(map_map segKey PHASE_CONFIDENCE).
    now rewrite Hk.
  - rewrite !generateCookPlan_layout. cbv zeta. cbn [recommendedStartTime].
    rewrite !layout_start_total.
    change (restEndOf (with_smokerTempF t input)) with (restEndOf input).
    enough (totalMax (segments (with_smokerTempF t input))
            = totalMax (segments input)) as -> by reflexivity.
    clear Ht Hk. revert Hr.
    generalize (segments (with_smokerTempF t input)) as xs.
    generalize (segments input) as ys.
    induction ys as [|y ys IH]; intros [|x xs] Hr; try discriminate;
      [reflexivity|].
    cbn [map] in Hr. injection Hr as Hx Hrest. cbn [totalMax].
    now rewrite Hx, (IH xs Hrest).
  - apply other_notes_with_smokerTempF.
Qed.

(** *** Monotonicity in the weight *)






(* ================================================================== *)
(** ** Re-prediction *)

Lemma actualProgressOf_nonneg cur target :
  (0 <= cur)%Q -> (0 < target)%Q -> (0 <= actualProgressOf cur target)%Q.
Proof.
  intros Hc Ht. unfold actualProgressOf.
  apply Qle_shift_div_l; [exact Ht | lra].
Qed.

(** Logged temperatures and target temperatures accepted by the request
    schemas are positive. *)
Lemma logTempSchema_pos t : logTempSchema t = true -> (0 < t)%Q.
Proof.
  unfold logTempSchema, z_number. intros H.
  apply andb_prop in H as [H _]. apply Qle_bool_iff in H. lra.
Qed.

Lemma Qltb_cases x y :
  {Qltb x y = true /\ (x < y)%Q} + {Qltb x y = false /\ (y <= x)%Q}.
Proof.
  destruct (Qltb x y) eqn:E; [left | right]; split; auto.
  - now apply Qltb_lt.
  - now apply Qltb_ge.
Qed.








Lemma phases_contiguous_witness :
  planCookSchema brisketInput = true
  /\ (forall i p q,
        nth_error (phases (generateCookPlan brisketInput)) i = Some p ->
        nth_error (phases (generateCookPlan brisketInput)) (S i) = Some q ->
        endTime p = startTime q /\ startTime p <= startTime q).
Proof.
  split; [reflexivity|].
  destruct (phases_contiguous brisketInput) as [H _]; [reflexivity | exact H].
Defined.

Lemma confidence_range_brackets_witness :
  planCookSchema brisketInput = true
  /\ earliest (confidenceRange (generateCookPlan brisketInput))
     <= predictedFinishTime (generateCookPlan brisketInput)
  /\ predictedFinishTime (generateCookPlan brisketInput)
     <= latest (confidenceRange (generateCookPlan brisketInput)).
Proof.
  split; [reflexivity|].
  destruct (confidence_range_brackets brisketInput) as (_ & _ & _ & H);
    [reflexivity | exact H].
Defined.

Lemma duration_ranges_sound_witness :
  planCookSchema brisketInput = true
  /\ Forall (fun p => sound_range (durationRange p))
       (phases (generateCookPlan brisketInput)).
Proof.
  split; [reflexivity|].
  destruct (duration_ranges_sound brisketInput) as (_ & _ & H & _);
    [reflexivity | exact H].
Defined.

(* ================================================================== *)
(** ** The planner on the sample requests *)

(** X13: the order index of a phase is its position in the returned list,
    counted from 0. *)
Lemma phases_order input i p :
  nth_error (phases (generateCookPlan input)) i = Some p ->
  order p = Some (Z.of_nat i).
Proof.
  rewrite phases_layout. unfold assign_order. intros H.
  now rewrite (assign_order_from_nth _ _ _ _ H).
Qed.

Example brisket_phase_names :
  map name (phases (generateCookPlan brisketInput)) =
  ["Prep & Trim"; "Preheat Smoker"; "Smoke Phase 1"; "Stall Window";
   "Smoke Phase 2"; "Rest"]%string.
Proof. vm_compute. reflexivity. Qed.

Example brisket_confidence :
  overallConfidence (generateCookPlan brisketInput) = 90
  /\ getConfidenceLevel (overallConfidence (generateCookPlan brisketInput)) = HIGH.
Proof. vm_compute. split; reflexivity. Qed.

Example wrapped_brisket_phase_names :
  map name (phases (generateCookPlan wrappedBrisketInput)) =
  ["Prep & Trim"; "Preheat Smoker"; "Smoke Phase 1"; "Stall Window";
   "Wrap Decision"; "Smoke Phase 2"; "Rest"]%string.
Proof. vm_compute. reflexivity. Qed.

(** Wrapping halves the stall range. *)
Example wrapped_stall_is_half :
  calculateStallDuration BRISKET NONE = Some (Range.mk 60 240)
  /\ calculateStallDuration BRISKET BUTCHER_PAPER = Some (Range.mk 30 120).
Proof. vm_compute. split; reflexivity. Qed.

Example ribs_phase_names :
  map name (phases (generateCookPlan ribsInput)) =
  ["Prep & Trim"; "Preheat Smoker"; "Smoke Phase 1"; "Rest"]%string.
Proof. vm_compute. reflexivity. Qed.

(** Meat at 160 F ten hours into the brisket plan is ahead of the linear
    expectation, and the finish time moves earlier. *)
Example brisket_ahead :
  status (updatePrediction (generateCookPlan brisketInput) 160 600 203) = ahead
  /\ updatedFinishTime
       (updatePrediction (generateCookPlan brisketInput) 160 600 203)
     < predictedFinishTime (generateCookPlan brisketInput).
Proof. vm_compute. split; reflexivity. Qed.

(* ================================================================== *)
(** ** Further properties of the planner's parts *)


Section EnvironmentAndSmoker.
Variables (c : MeatCut) (w : Q) (wr : WrapMethod).
Hypothesis Hw : (0 <= w)%Q.

Lemma weightScale_nonneg : (0 <= weightScale c w)%Q.
Proof.
  unfold weightScale. destruct (BaseTime.perPound _); lra.
Qed.

(** A larger environmental multiplier gives a range that is no shorter. *)
Lemma calculateBaseCookTime_env_mono s a h a' h' :
  (getEnvironmentalMultiplier a h <= getEnvironmentalMultiplier a' h')%Q ->
  range_le (calculateBaseCookTime c w s wr a h)
           (calculateBaseCookTime c w s wr a' h').
Proof.
  intros Hm. rewrite !calculateBaseCookTime_closed.
  destruct (cookLo_bounds c s) as [Hlo Hle].
  pose proof weightScale_nonneg as Hs.
  unfold range_le. cbn [Range.min Range.max].
  split; apply Math_round_mono;
    rewrite !(Qmult_comm _ (getEnvironmentalMultiplier _ _));
    (apply Qmult_le_compat_r; [exact Hm|]);
    apply Qmult_le_0_compat; lra.
Qed.

Lemma calculateBaseCookTime_smoker_mono s1 s2 a h :
  (cookLo c s1 <= cookLo c s2)%Q -> (cookHi c s1 <= cookHi c s2)%Q ->
  range_le (calculateBaseCookTime c w s1 wr a h)
           (calculateBaseCookTime c w s2 wr a h).
Proof.
  intros Hlo Hhi. rewrite !calculateBaseCookTime_closed.
  pose proof weightScale_nonneg as Hs.
  destruct (getEnvironmentalMultiplier_bounds a h) as [He _].
  unfold range_le. cbn [Range.min Range.max].
  split; apply Math_round_mono;
    (apply Qmult_le_compat_r; [|lra]);
    apply Qmult_le_compat_r; assumption.
Qed.
End EnvironmentAndSmoker.

(** X2: for a non-negative weight, cold ambient air (below 40 F) and high
    altitude (above 5000 ft) never shorten either end of the cook-time
    range, and hot ambient air (above 90 F) never lengthens it, compared
    with the same request without that condition. *)
Theorem environment_effect_on_cook_time
    (c : MeatCut) (w : Q) (s : SmokerType) (wr : WrapMethod) :
  (0 <= w)%Q ->
  (forall t h, (t < 40)%Q ->
     range_le (calculateBaseCookTime c w s wr None h)
              (calculateBaseCookTime c w s wr (Some t) h))
  /\ (forall t h, (90 < t)%Q ->
     range_le (calculateBaseCookTime c w s wr (Some t) h)
              (calculateBaseCookTime c w s wr None h))
  /\ (forall a x, (5000 < x)%Q ->
     range_le (calculateBaseCookTime c w s wr a None)
              (calculateBaseCookTime c w s wr a (Some x))).
Proof.
  intros Hw.
  repeat split; intros;
    apply calculateBaseCookTime_env_mono; try assumption;
    unfold getEnvironmentalMultiplier,
      ENVIRONMENTAL_MULTIPLIERS.coldAmbient, ENVIRONMENTAL_MULTIPLIERS.hotAmbient,
      ENVIRONMENTAL_MULTIPLIERS.highAltitude,
      ENVIRONMENTAL_THRESHOLDS.coldAmbient, ENVIRONMENTAL_THRESHOLDS.hotAmbient,
      ENVIRONMENTAL_THRESHOLDS.highAltitude;
    cbv zeta;
    repeat match goal with
           | |- context [match ?o with Some _ => _ | None => _ end] =>
               destruct o
           | |- context [Qltb ?x ?y] =>
               destruct (Qltb_cases x y) as [[-> ?]|[-> ?]]
           end;
    lra.
Qed.

Lemma environment_effect_on_cook_time_witness :
  (0 <= 12)%Q
  /\ range_le (calculateBaseCookTime BRISKET 12 PELLET NONE None None)
              (calculateBaseCookTime BRISKET 12 PELLET NONE None (Some 6000%Q)).
Proof.
  split; [vm_compute; discriminate|].
  destruct (environment_effect_on_cook_time BRISKET 12 PELLET NONE)
    as (_ & _ & H); [vm_compute; discriminate|].
  apply (H None 6000%Q). reflexivity.
Defined.

(** X3: for a non-negative weight, a smoker type with a smaller time
    multiplier never has the longer cook-time range, at either end: pellet,
    kamado, electric, kettle, offset in this order. *)
Theorem faster_smoker_shorter_cook
    (c : MeatCut) (w : Q) (wr : WrapMethod) (a h : option Q)
    (s1 s2 : SmokerType) :
  (0 <= w)%Q ->
  (multiplier (SMOKER_MULTIPLIERS s1) <= multiplier (SMOKER_MULTIPLIERS s2))%Q ->
  range_le (calculateBaseCookTime c w s1 wr a h)
           (calculateBaseCookTime c w s2 wr a h).
Proof.
  intros Hw Hm. apply calculateBaseCookTime_smoker_mono; [exact Hw| |];
    destruct c, s1, s2;
    first [ discriminate
          | exfalso; revert Hm; vm_compute; intros Hm; now apply Hm ].
Qed.

Lemma faster_smoker_shorter_cook_witness :
  (0 <= 12)%Q
  /\ range_le (calculateBaseCookTime BRISKET 12 PELLET NONE None None)
              (calculateBaseCookTime BRISKET 12 OFFSET NONE None None).
Proof.
  split; [vm_compute; discriminate|].
  apply faster_smoker_shorter_cook; vm_compute; discriminate.
Defined.



(* ================================================================== *)
(** ** Further properties of generated plans *)

Lemma calculateBaseCookTime_wrap c w s wr wr' a h :
  calculateBaseCookTime c w s wr a h = calculateBaseCookTime c w s wr' a h.
Proof. reflexivity. Qed.

Lemma calculateBaseCookTime_flat c w w' s wr a h :
  BaseTime.perPound (BASE_COOK_TIMES c) = false ->
  calculateBaseCookTime c w s wr a h = calculateBaseCookTime c w' s wr a h.
Proof.
  intros Hflat. unfold calculateBaseCookTime. now rewrite Hflat.
Qed.

(** X5: for a cut whose base cook time is a total and not a rate per pound
    (the three rib cuts), the whole plan is the same whatever the weight. *)
Theorem flat_cut_plan_ignores_weight (input : CookPlanInput) (w : Q) :
  BaseTime.perPound (BASE_COOK_TIMES (meatCut input)) = false ->
  generateCookPlan (with_weightLbs w input) = generateCookPlan input.
Proof.
  intros Hflat. unfold generateCookPlan.
  cbn [with_weightLbs meatCut weightLbs smokerType smokerTempF wrapMethod
       serveTime ambientTempF altitude].
  now rewrite (calculateBaseCookTime_flat _ w (weightLbs input) _ _ _ _ Hflat).
Qed.

Lemma flat_cut_plan_ignores_weight_witness :
  BaseTime.perPound (BASE_COOK_TIMES (meatCut ribsInput)) = false
  /\ generateCookPlan (with_weightLbs 5 ribsInput) = generateCookPlan ribsInput.
Proof.
  split; [reflexivity|].
  apply (flat_cut_plan_ignores_weight ribsInput 5). reflexivity.
Defined.

(** X7: for a cut outside the stall-affected set the whole plan, notes
    included, is the same for every wrap method. *)
Theorem unstalled_plan_ignores_wrap (input : CookPlanInput) (wr : WrapMethod) :
  ~ In (meatCut input) STALL_CONFIG.affectedCuts ->
  generateCookPlan (with_wrapMethod wr input) = generateCookPlan input.
Proof.
  rewrite <- hasStall_In. intros Hs. apply not_true_is_false in Hs.
  unfold generateCookPlan.
  cbn [with_wrapMethod meatCut weightLbs smokerType smokerTempF wrapMethod
       serveTime ambientTempF altitude].
  rewrite !calculateStallDuration_closed, Hs.
  rewrite (calculateBaseCookTime_wrap _ _ _ wr (wrapMethod input)).
  reflexivity.
Qed.

Lemma unstalled_plan_ignores_wrap_witness :
  ~ In (meatCut ribsInput) STALL_CONFIG.affectedCuts
  /\ generateCookPlan (with_wrapMethod NONE ribsInput) = generateCookPlan ribsInput.
Proof.
  assert (H : ~ In (meatCut ribsInput) STALL_CONFIG.affectedCuts).
  { cbn. intros [H|[H|[]]]; discriminate H. }
  split; [exact H|]. apply (unstalled_plan_ignores_wrap ribsInput NONE H).
Defined.

Lemma count_confidence_layout c T segs :
  count_confidence c (layout T segs) =
  Z.of_nat (List.length
    (filter (fun sg => Confidence_eqb (PHASE_CONFIDENCE (segKey sg)) c) segs)).
Proof.
  unfold count_confidence. f_equal.
  induction segs as [|sg rest IH]; [reflexivity|].
  rewrite layout_cons. cbn [filter mkPhase confidence].
  destruct (Confidence_eqb (PHASE_CONFIDENCE (segKey sg)) c);
    cbn [List.length]; now rewrite IH.
Qed.

(** The score of a plan from the shape of its segments. *)
Lemma overallConfidence_segments input :
  overallConfidence (generateCookPlan input) =
  let low := Z.of_nat (List.length (filter
    (fun sg => Confidence_eqb (PHASE_CONFIDENCE (segKey sg)) LOW)
    (segments input))) in
  let medium := Z.of_nat (List.length (filter
    (fun sg => Confidence_eqb (PHASE_CONFIDENCE (segKey sg)) MEDIUM)
    (segments input))) in
  Z.max 20 (Z.min 100 (Math_round
    (100 - (varianceMultiplier (SMOKER_MULTIPLIERS (smokerType input)) - 1) * 50
     - inject_Z low * 10 - inject_Z medium * 5))).
Proof.
  rewrite generateCookPlan_layout. cbv zeta. cbn [overallConfidence].
  unfold calculateOverallConfidence. now rewrite !count_confidence_layout.
Qed.

(** X9: the overall confidence of every plan is between 60 and 100, so its
    confidence level is never LOW. *)
Theorem plan_confidence_never_low (input : CookPlanInput) :
  60 <= overallConfidence (generateCookPlan input) <= 100
  /\ getConfidenceLevel (overallConfidence (generateCookPlan input)) <> LOW.
Proof.
  assert (H : 60 <= overallConfidence (generateCookPlan input) <= 100).
  { rewrite overallConfidence_segments.
    unfold segments, midSegments. by_shape input;
      cbn [app filter segKey PHASE_CONFIDENCE Confidence_eqb List.length];
      destruct (smokerType input); vm_compute; split; discriminate. }
  split; [exact H|].
  unfold getConfidenceLevel, CONFIDENCE_THRESHOLDS.high, CONFIDENCE_THRESHOLDS.medium.
  destruct (70 <=? _) eqn:E1; [discriminate|].
  destruct (40 <=? _) eqn:E2; [discriminate|].
  apply Z.leb_gt in E2. lia.
Qed.

(** X6: on a validated request for a stall-affected cut, choosing a wrap
    method instead of none leaves the predicted finish time where it is,
    moves the recommended start 120 minutes later, narrows the confidence
    range by 45 minutes on each side and lowers the overall confidence by
    exactly 5 points. *)
Theorem wrap_effect_on_stalled_plan (input : CookPlanInput) (wr : WrapMethod) :
  planCookSchema input = true ->
  In (meatCut input) STALL_CONFIG.affectedCuts ->
  wr <> NONE ->
  let unwrapped := generateCookPlan (with_wrapMethod NONE input) in
  let wrapped_ := generateCookPlan (with_wrapMethod wr input) in
  predictedFinishTime wrapped_ = predictedFinishTime unwrapped
  /\ recommendedStartTime wrapped_
     = recommendedStartTime unwrapped + 120 * 60000
  /\ earliest (confidenceRange wrapped_)
     = earliest (confidenceRange unwrapped) + 45 * 60000
  /\ latest (confidenceRange wrapped_)
     = latest (confidenceRange unwrapped) - 45 * 60000
  /\ overallConfidence wrapped_ = overallConfidence unwrapped - 5.
Proof.
  intros Hvalid Hin Hwr unwrapped wrapped_. subst unwrapped wrapped_.
  apply hasStall_In in Hin.
  assert (Hg : forall x,
    (0 <? Range.min (smoke2RangeOf (with_wrapMethod x input))) = true).
  { intros x. rewrite (smoke2_guard (with_wrapMethod x input) Hvalid).
    exact Hin. }
  assert (Hwrapped : wrapped (with_wrapMethod wr input) = true)
    by (destruct wr; [contradiction|reflexivity..]).
  split; [|split; [|split; [|split]]].
  - rewrite !generateCookPlan_layout. reflexivity.
  - rewrite !generateCookPlan_layout. cbv zeta. cbn [recommendedStartTime].
    rewrite !layout_start_total. unfold segments, midSegments.
    rewrite !Hg, Hwrapped.
    change (wrapped (with_wrapMethod NONE input)) with false.
    cbn [app totalMax segRange Range.max with_wrapMethod wrapMethod meatCut
         serveTime].
    change (smoke1RangeOf (with_wrapMethod wr input))
      with (smoke1RangeOf (with_wrapMethod NONE input)).
    change (smoke2RangeOf (with_wrapMethod wr input))
      with (smoke2RangeOf (with_wrapMethod NONE input)).
    destruct wr; [contradiction|..]; cbn [stallRange negb WrapMethod_eqb Range.max];
      lia.
  - rewrite !generateCookPlan_layout. cbv zeta.
    cbn [confidenceRange earliest]. unfold totalVarianceMinutesOf.
    rewrite !calculateStallDuration_closed.
    cbn [with_wrapMethod wrapMethod meatCut serveTime]. rewrite Hin.
    change (cookTimeRangeOf (with_wrapMethod wr input))
      with (cookTimeRangeOf (with_wrapMethod NONE input)).
    destruct wr; [contradiction|..];
      cbn [stallRange negb WrapMethod_eqb Range.max Range.min]; lia.
  - rewrite !generateCookPlan_layout. cbv zeta.
    cbn [confidenceRange latest]. unfold totalVarianceMinutesOf.
    rewrite !calculateStallDuration_closed.
    cbn [with_wrapMethod wrapMethod meatCut serveTime]. rewrite Hin.
    change (cookTimeRangeOf (with_wrapMethod wr input))
      with (cookTimeRangeOf (with_wrapMethod NONE input)).
    destruct wr; [contradiction|..];
      cbn [stallRange negb WrapMethod_eqb Range.max Range.min]; lia.
  - rewrite !overallConfidence_segments. unfold segments, midSegments.
    rewrite !Hg, Hwrapped.
    change (wrapped (with_wrapMethod NONE input)) with false.
    cbn [app filter segKey PHASE_CONFIDENCE Confidence_eqb List.length
         with_wrapMethod smokerType].
    destruct (smokerType input); vm_compute; reflexivity.
Qed.

Lemma wrap_effect_on_stalled_plan_witness :
  planCookSchema brisketInput = true
  /\ FOIL <> NONE
  /\ overallConfidence (generateCookPlan (with_wrapMethod FOIL brisketInput))
     = overallConfidence (generateCookPlan (with_wrapMethod NONE brisketInput)) - 5.
Proof.
  split; [reflexivity|]. split; [discriminate|].
  destruct (wrap_effect_on_stalled_plan brisketInput FOIL)
    as (_ & _ & _ & _ & H);
    [reflexivity | cbn; auto | discriminate | exact H].
Defined.

(** X8: butcher paper and foil give the same plan, up to the note of Smoke
    Phase 2 that names the wrap. *)
Theorem paper_and_foil_plans_agree (input : CookPlanInput) :
  let paper := generateCookPlan (with_wrapMethod BUTCHER_PAPER input) in
  let foil := generateCookPlan (with_wrapMethod FOIL input) in
  map phase_schedule (phases foil) = map phase_schedule (phases paper)
  /\ predictedFinishTime foil = predictedFinishTime paper
  /\ confidenceRange foil = confidenceRange paper
  /\ overallConfidence foil = overallConfidence paper
  /\ recommendedStartTime foil = recommendedStartTime paper
  /\ (forall i p q,
        nth_error (phases paper) i = Some p ->
        nth_error (phases foil) i = Some q ->
        name p <> PHASE_NAMES SMOKE_2 -> notes p = notes q).
Proof.
  intros paper foil. subst paper foil.
  rewrite !generateCookPlan_layout. cbv zeta.
  cbn [phases predictedFinishTime confidenceRange overallConfidence
       recommendedStartTime].
  unfold segments, midSegments, layout_start, assign_order,
    totalVarianceMinutesOf.
  rewrite !calculateStallDuration_closed.
  change (smoke2RangeOf (with_wrapMethod FOIL input))
    with (smoke2RangeOf (with_wrapMethod BUTCHER_PAPER input)).
  change (smoke1RangeOf (with_wrapMethod FOIL input))
    with (smoke1RangeOf (with_wrapMethod BUTCHER_PAPER input)).
  change (cookTimeRangeOf (with_wrapMethod FOIL input))
    with (cookTimeRangeOf (with_wrapMethod BUTCHER_PAPER input)).
  cbn [with_wrapMethod wrapMethod meatCut serveTime smokerType smokerTempF
       wrapped negb WrapMethod_eqb].
  destruct (0 <? Range.min (smoke2RangeOf (with_wrapMethod BUTCHER_PAPER input)));
    cbn [app layout assign_order_from mkPhase segKey segRange segNote
         startTime map];
    (split; [|split; [|split; [|split; [|split]]]]); try reflexivity;
    intros i p q H H' Hn;
    do 8 (destruct i as [|i];
          [ cbn [nth_error] in H, H'; try discriminate H;
            injection H as <-; injection H' as <-;
            cbn in Hn |- *; congruence
          | ]);
    cbn in H; discriminate.
Qed.

Lemma layout_shift d T segs :
  layout (T + d) segs = map (shift_phase d) (layout T segs).
Proof.
  induction segs as [|sg rest IH]; [reflexivity|].
  rewrite !layout_cons. cbn [map]. rewrite <- IH. f_equal.
  assert (Hs : layout_start (T + d) rest = layout_start T rest + d).
  { unfold layout_start. rewrite IH.
    destruct (layout T rest); reflexivity. }
  rewrite Hs. unfold shift_phase, mkPhase.
  cbn [name startTime endTime durationRange confidence notes order].
  f_equal. lia.
Qed.

Lemma assign_order_from_shift d ps : forall k,
  assign_order_from k (map (shift_phase d) ps) =
  map (shift_phase d) (assign_order_from k ps).
Proof.
  induction ps as [|p ps IH]; intros k; [reflexivity|].
  cbn [map assign_order_from]. now rewrite IH.
Qed.

Lemma calculateOverallConfidence_shift d ps s :
  calculateOverallConfidence (map (shift_phase d) ps) s =
  calculateOverallConfidence ps s.
Proof.
  apply calculateOverallConfidence_confidences.
  rewrite map_map. reflexivity.
Qed.

(** X10: moving the serve time by [d] milliseconds moves every timestamp of
    the plan by [d] and changes nothing else. *)
Theorem plan_follows_serve_time (input : CookPlanInput) (d : Z) :
  let plan := generateCookPlan input in
  let plan' := generateCookPlan (with_serveTime (serveTime input + d) input) in
  phases plan' = map (shift_phase d) (phases plan)
  /\ predictedFinishTime plan' = predictedFinishTime plan + d
  /\ earliest (confidenceRange plan') = earliest (confidenceRange plan) + d
  /\ latest (confidenceRange plan') = latest (confidenceRange plan) + d
  /\ recommendedStartTime plan' = recommendedStartTime plan + d
  /\ overallConfidence plan' = overallConfidence plan.
Proof.
  intros plan plan'. subst plan plan'.
  rewrite !generateCookPlan_layout. cbv zeta.
  cbn [phases predictedFinishTime confidenceRange earliest latest
       overallConfidence recommendedStartTime].
  change (segments (with_serveTime (serveTime input + d) input))
    with (segments input).
  change (totalVarianceMinutesOf (with_serveTime (serveTime input + d) input))
    with (totalVarianceMinutesOf input).
  cbn [with_serveTime serveTime meatCut smokerType].
  replace (serveTime input + d - 30 * 60000)
    with (serveTime input - 30 * 60000 + d) by lia.
  rewrite layout_shift. unfold assign_order.
  split; [apply assign_order_from_shift|].
  rewrite calculateOverallConfidence_shift, !layout_start_total.
  repeat split; lia.
Qed.

Lemma layout_sumMax T segs : sumMax (layout T segs) = totalMax segs.
Proof.
  induction segs as [|sg rest IH]; [reflexivity|].
  rewrite layout_cons. cbn [sumMax totalMax mkPhase durationRange].
  now rewrite IH.
Qed.

Lemma assign_order_from_sumMax ps : forall k,
  sumMax (assign_order_from k ps) = sumMax ps.
Proof.
  induction ps as [|p ps IH]; intros k; [reflexivity|].
  cbn [assign_order_from sumMax durationRange]. now rewrite IH.
Qed.

Lemma layout_exact_lengths T segs :
  Forall (fun p => endTime p - startTime p = Range.max (durationRange p) * 60000)
         (layout T segs).
Proof.
  induction segs as [|sg rest IH]; [constructor|].
  rewrite layout_cons. constructor; [|exact IH].
  cbn [mkPhase startTime endTime durationRange]. lia.
Qed.

Lemma assign_order_from_Forall (P : PhaseDefinition -> Prop) :
  (forall p k,
      P p ->
      P {| name := name p; startTime := startTime p; endTime := endTime p;
           durationRange := durationRange p; confidence := confidence p;
           notes := notes p; order := Some k |}) ->
  forall ps k, Forall P ps -> Forall P (assign_order_from k ps).
Proof.
  intros HP ps k H. revert k.
  induction H as [|p ps Hp _ IH]; intros k; cbn [assign_order_from];
    constructor; auto.
Qed.

(** X11: every phase is scheduled for exactly the maximum of its duration
    range; the plan spans the sum of these maxima and ends 30 minutes before
    the serve time; the predicted finish is the maximum rest time before
    that. *)
Theorem phases_take_their_maximum (input : CookPlanInput) :
  let plan := generateCookPlan input in
  Forall (fun p => endTime p - startTime p = Range.max (durationRange p) * 60000)
         (phases plan)
  /\ recommendedStartTime plan
     = serveTime input - (30 + sumMax (phases plan)) * 60000
  /\ predictedFinishTime plan
     = serveTime input
       - (30 + Range.max (REST_TIME_MINUTES (meatCut input))) * 60000.
Proof.
  intros plan. subst plan. rewrite generateCookPlan_layout. cbv zeta.
  cbn [phases recommendedStartTime predictedFinishTime]. unfold assign_order.
  split; [|split].
  - apply assign_order_from_Forall; [auto|]. apply layout_exact_lengths.
  - rewrite assign_order_from_sumMax, layout_sumMax, layout_start_total. lia.
  - lia.
Qed.

Lemma NoDup_cons_notin {A} (x : A) (l : list A) :
  ~ In x l -> NoDup l -> NoDup (x :: l).
Proof. intros. now constructor. Qed.

Lemma plan_names_NoDup input :
  NoDup (map name (phases (generateCookPlan input))).
Proof.
  rewrite phase_names. unfold segments, midSegments.
  by_shape input; cbn [app map segKey PHASE_NAMES];
    repeat (apply NoDup_cons_notin;
            [cbn [In]; intros H;
             repeat (destruct H as [H|H]; [discriminate H|]); exact H|]);
    constructor.
Qed.

(** X12: the phases of a plan have pairwise distinct names, and there are
    four to seven of them. *)
Theorem phase_names_distinct (input : CookPlanInput) :
  NoDup (map name (phases (generateCookPlan input)))
  /\ (4 <= List.length (phases (generateCookPlan input)) <= 7)%nat.
Proof.
  split; [apply plan_names_NoDup|].
  rewrite <- (length_map name), phase_names.
  unfold segments, midSegments.
  by_shape input; cbn [app map List.length]; lia.
Qed.

Lemma phases_order_witness :
  option_map order (nth_error (phases (generateCookPlan brisketInput)) 2)
  = Some (Some 2).
Proof.
  destruct (nth_error (phases (generateCookPlan brisketInput)) 2) as [p|] eqn:E.
  - cbn [option_map]. now rewrite (phases_order brisketInput 2 p E).
  - vm_compute in E. discriminate E.
Defined.

(** X23: on a validated request for a stall-affected cut, the maxima of
    Smoke Phase 1 and Smoke Phase 2 add up to within a minute of 70% of the
    cook-time maximum; for the other cuts Smoke Phase 1 carries the
    cook-time range itself. *)
Theorem smoke_phases_share (input : CookPlanInput) :
  planCookSchema input = true ->
  let ct :=
    calculateBaseCookTime (meatCut input) (weightLbs input) (smokerType input)
      (wrapMethod input) (ambientTempF input) (altitude input) in
  forall p1,
    In p1 (phases (generateCookPlan input)) -> name p1 = PHASE_NAMES SMOKE_1 ->
    (~ In (meatCut input) STALL_CONFIG.affectedCuts -> durationRange p1 = ct)
    /\ (forall p2,
          In p2 (phases (generateCookPlan input)) ->
          name p2 = PHASE_NAMES SMOKE_2 ->
          (inject_Z (Range.max ct) * 0.7 - 1
             < inject_Z (Range.max (durationRange p1)
                         + Range.max (durationRange p2))
           /\ inject_Z (Range.max (durationRange p1)
                        + Range.max (durationRange p2))
              <= inject_Z (Range.max ct) * 0.7 + 1)%Q).
Proof.
  intros Hvalid ct p1 Hp1 Hn1. rewrite <- hasStall_In.
  assert (Hct : ct = cookTimeRangeOf input) by reflexivity.
  clearbody ct.
  rewrite phases_layout in *. unfold segments, midSegments, assign_order in *.
  rewrite (smoke2_guard input Hvalid) in *.
  unfold smoke1RangeOf, smoke2RangeOf in *. rewrite <- Hct in *. clear Hct.
  destruct (hasStall (meatCut input)); [destruct (wrapped input)|];
    cbn [app layout assign_order_from mkPhase segKey segRange segNote
         startTime In] in Hp1 |- *;
    repeat (destruct Hp1 as [<-|Hp1]; [cbn in Hn1; try discriminate Hn1|]);
    try contradiction;
    (split; [intros Hs; first [reflexivity | now contradiction Hs]|]);
    intros p2 Hp2 Hn2;
    repeat (destruct Hp2 as [<-|Hp2]; [cbn in Hn2; try discriminate Hn2|]);
    try contradiction;
    cbn [durationRange Range.max mkPhase];
    rewrite inject_Z_plus;
    pose proof (Math_round_close (inject_Z (Range.max ct) * 0.4)) as [Ha Hb];
    pose proof (Math_round_close (inject_Z (Range.max ct) * 0.3)) as [Hc Hd];
    split; lra.
Qed.

Lemma smoke_phases_share_witness :
  planCookSchema ribsInput = true
  /\ option_map durationRange
       (nth_error (phases (generateCookPlan ribsInput)) 2)
     = Some (calculateBaseCookTime BABY_BACK_RIBS 3 OFFSET FOIL None None).
Proof.
  split; [reflexivity|].
  destruct (nth_error (phases (generateCookPlan ribsInput)) 2) as [p|] eqn:E;
    [|vm_compute in E; discriminate E].
  cbn [option_map]. f_equal.
  assert (Hn : name p = PHASE_NAMES SMOKE_1)
    by (vm_compute in E; injection E as <-; reflexivity).
  destruct (smoke_phases_share ribsInput eq_refl p (nth_error_In _ _ E) Hn)
    as [H _].
  apply H. cbn. intros [F|[F|[]]]; discriminate F.
Defined.

(* ================================================================== *)
(** ** Further properties of the re-prediction *)

Lemma updatePrediction_adjustedConfidence plan cur elapsed target :
  adjustedConfidence (updatePrediction plan cur elapsed target) =
  Math_round
    (Qmax 20 (inject_Z (overallConfidence plan)
              - Qabs (actualProgressOf cur target
                      - expectedProgressOf plan elapsed) * 30)).
Proof.
  unfold updatePrediction. cbv zeta.
  destruct (Qltb _ _); [|destruct (Qltb _ _)]; reflexivity.
Qed.

Lemma totalExpectedMinutesOf_pos plan :
  recommendedStartTime plan < latest (confidenceRange plan) ->
  (0 < totalExpectedMinutesOf plan)%Q.
Proof.
  intros H. unfold totalExpectedMinutesOf.
  apply Qlt_shift_div_l; [reflexivity|].
  change (0 * 60000)%Q with (inject_Z 0). rewrite <- Zlt_Qlt. lia.
Qed.

Lemma expectedProgressOf_nonneg plan elapsed :
  recommendedStartTime plan < latest (confidenceRange plan) ->
  (0 <= elapsed)%Q -> (0 <= expectedProgressOf plan elapsed)%Q.
Proof.
  intros Hp He. unfold expectedProgressOf.
  apply Qle_shift_div_l; [now apply totalExpectedMinutesOf_pos | lra].
Qed.

(** X14: for a plan whose confidence range ends after its recommended
    start, a non-negative elapsed time and a non-zero target temperature,
    a reading that is ahead never moves the finish time later, one that is
    behind never moves it earlier, and one on track leaves it in place. *)
Theorem prediction_moves_the_right_way (plan : CookPlan)
    (currentTempF elapsedMinutes targetTempF : Q) :
  recommendedStartTime plan < latest (confidenceRange plan) ->
  (0 <= elapsedMinutes)%Q ->
  ~ (targetTempF == 0)%Q ->
  let r := updatePrediction plan currentTempF elapsedMinutes targetTempF in
  (status r = ahead -> updatedFinishTime r <= predictedFinishTime plan)
  /\ (status r = behind -> predictedFinishTime plan <= updatedFinishTime r)
  /\ (status r = on_track -> updatedFinishTime r = predictedFinishTime plan).
Proof.
  intros Hplan Helapsed _ r.
  pose proof (totalExpectedMinutesOf_pos plan Hplan) as Ht.
  pose proof (expectedProgressOf_nonneg plan _ Hplan Helapsed) as He.
  subst r. unfold updatePrediction. cbv zeta.
  change (inject_Z (latest (confidenceRange plan) - recommendedStartTime plan)
          / 60000)%Q with (totalExpectedMinutesOf plan).
  change (elapsedMinutes / totalExpectedMinutesOf plan)%Q
    with (expectedProgressOf plan elapsedMinutes).
  generalize dependent (expectedProgressOf plan elapsedMinutes). intros e He.
  generalize dependent (totalExpectedMinutesOf plan). intros total Ht.
  generalize (currentTempF / targetTempF)%Q. intros a.
  destruct (Qltb_cases (e * 1.1) a) as [[-> H1]|[-> H1]];
    [|destruct (Qltb_cases a (e * 0.9)) as [[-> H2]|[-> H2]]];
    cbn [status updatedFinishTime];
    repeat split; intros; try discriminate; try lia.
  - enough (0 <= Math_round ((a - e) * total * 0.3)) by lia.
    apply (Math_round_lower 0). change (inject_Z 0) with 0%Q.
    apply Qmult_le_0_compat; [|lra]. apply Qmult_le_0_compat; lra.
  - enough (0 <= Math_round ((e - a) * total * 0.3)) by lia.
    apply (Math_round_lower 0). change (inject_Z 0) with 0%Q.
    apply Qmult_le_0_compat; [|lra]. apply Qmult_le_0_compat; lra.
Qed.

Lemma prediction_moves_the_right_way_witness :
  (0 <= 600)%Q /\ ~ (203 == 0)%Q
  /\ (status (updatePrediction (generateCookPlan brisketInput) 160 600 203) = ahead ->
      updatedFinishTime (updatePrediction (generateCookPlan brisketInput) 160 600 203)
      <= predictedFinishTime (generateCookPlan brisketInput)).
Proof.
  split; [vm_compute; discriminate|]. split; [vm_compute; discriminate|].
  destruct (prediction_moves_the_right_way (generateCookPlan brisketInput)
              160 600 203) as [H _];
    [reflexivity | vm_compute; discriminate | vm_compute; discriminate
    | exact H].
Defined.

(** X15: a reading exactly on the linear expectation changes nothing: for a
    plan with a score of at least 20, a non-negative temperature and a
    positive target, the status is on track, the finish time is the
    predicted one and the confidence is the overall confidence. *)
Theorem reading_on_expectation (plan : CookPlan)
    (currentTempF elapsedMinutes targetTempF : Q) :
  20 <= overallConfidence plan ->
  (0 <= currentTempF)%Q -> (0 < targetTempF)%Q ->
  latest (confidenceRange plan) <> recommendedStartTime plan ->
  (actualProgressOf currentTempF targetTempF
   == expectedProgressOf plan elapsedMinutes)%Q ->
  updatePrediction plan currentTempF elapsedMinutes targetTempF =
  {| updatedFinishTime := predictedFinishTime plan;
     adjustedConfidence := overallConfidence plan;
     status := on_track |}.
Proof.
  intros Hc Hcur Htarget _ Heq.
  pose proof (actualProgressOf_nonneg _ _ Hcur Htarget) as Ha.
  pose proof (updatePrediction_adjustedConfidence plan currentTempF
                elapsedMinutes targetTempF) as Hadj.
  assert (Hround :
    Math_round (Qmax 20 (inject_Z (overallConfidence plan)
                  - Qabs (actualProgressOf currentTempF targetTempF
                          - expectedProgressOf plan elapsedMinutes) * 30))
    = overallConfidence plan).
  { rewrite <- (Math_round_inject (overallConfidence plan)) at 2.
    apply Math_round_comp.
    assert (Hz : (Qabs (actualProgressOf currentTempF targetTempF
                        - expectedProgressOf plan elapsedMinutes) == 0)%Q).
    { rewrite Qabs_pos; lra. }
    rewrite Hz.
    assert (H20 : (20 <= inject_Z (overallConfidence plan))%Q)
      by (change 20%Q with (inject_Z 20); now rewrite <- Zle_Qle).
    rewrite Q.max_r; lra. }
  rewrite Hround in Hadj. clear Hround.
  revert Hadj. unfold updatePrediction. cbv zeta.
  change (inject_Z (latest (confidenceRange plan) - recommendedStartTime plan)
          / 60000)%Q with (totalExpectedMinutesOf plan).
  change (elapsedMinutes / totalExpectedMinutesOf plan)%Q
    with (expectedProgressOf plan elapsedMinutes).
  change (currentTempF / targetTempF)%Q
    with (actualProgressOf currentTempF targetTempF).
  destruct (Qltb_cases (expectedProgressOf plan elapsedMinutes * 1.1)
              (actualProgressOf currentTempF targetTempF)) as [[-> H1]|[-> H1]];
    [exfalso; lra|].
  destruct (Qltb_cases (actualProgressOf currentTempF targetTempF)
              (expectedProgressOf plan elapsedMinutes * 0.9)) as [[-> H2]|[-> H2]];
    [exfalso; lra|].
  cbn [adjustedConfidence]. intros ->. f_equal. lia.
Qed.

Lemma reading_on_expectation_witness :
  updatePrediction (generateCookPlan brisketInput) 100 (119300 # 203) 203 =
  {| updatedFinishTime := predictedFinishTime (generateCookPlan brisketInput);
     adjustedConfidence := overallConfidence (generateCookPlan brisketInput);
     status := on_track |}.
Proof.
  apply reading_on_expectation;
    first [ reflexivity | vm_compute; discriminate ].
Defined.



(* ================================================================== *)
(** ** The cook route and the views of a plan *)

Lemma z_number_spec lo hi x :
  z_number lo hi x = true <-> (lo <= x /\ x <= hi)%Q.
Proof.
  unfold z_number. rewrite andb_true_iff, !Qle_bool_iff. reflexivity.
Qed.

(** X17: the target temperature the create route stores for a cook is the
    validated one when it is given and the default of the cut otherwise; it
    always lies between 150 and 220 F, so it is never zero. *)
Theorem finalTargetTemp_range (targetTempF : option Q) (c : MeatCut) :
  targetTempSchema targetTempF = true ->
  (150 <= finalTargetTemp targetTempF c /\ finalTargetTemp targetTempF c <= 220)%Q
  /\ (forall t, targetTempF = Some t -> finalTargetTemp targetTempF c = t)
  /\ (targetTempF = None ->
      finalTargetTemp targetTempF c = DEFAULT_TARGET_TEMPS c).
Proof.
  unfold targetTempSchema, finalTargetTemp.
  destruct targetTempF as [t|]; cbn [z_optional]; intros Hv.
  - apply z_number_spec in Hv. destruct Hv as [Hlo Hhi].
    destruct (Qeq_bool t 0) eqn:E.
    + apply Qeq_bool_iff in E. lra.
    + repeat split; try assumption.
      * intros t' [= <-]. reflexivity.
      * discriminate.
  - repeat split; try discriminate; destruct c; vm_compute; discriminate.
Qed.

Lemma finalTargetTemp_range_witness :
  targetTempSchema None = true
  /\ (150 <= finalTargetTemp None BRISKET /\ finalTargetTemp None BRISKET <= 220)%Q.
Proof.
  split; [reflexivity|].
  destruct (finalTargetTemp_range None BRISKET) as [H _];
    [reflexivity | exact H].
Defined.

Lemma Qle_bool_inject (a z : Z) : Qle_bool (inject_Z a) (inject_Z z) = (a <=? z).
Proof.
  destruct (a <=? z) eqn:E.
  - apply Qle_bool_iff. rewrite <- Zle_Qle. now apply Z.leb_le.
  - apply not_true_is_false. intros H. apply Qle_bool_iff in H.
    rewrite <- Zle_Qle in H. apply Z.leb_gt in E. lia.
Qed.

(** X18: on a whole score, the label and the colour the mobile views show
    are those of the level [getConfidenceLevel] gives, and a higher score
    never gets a lower level. *)
Theorem confidence_views_agree (score score' : Z) :
  getConfidenceLabel (inject_Z score) = Confidence_value (getConfidenceLevel score)
  /\ getConfidenceColor (inject_Z score) = confidenceColors (getConfidenceLevel score)
  /\ (score <= score' ->
      getConfidenceLevel score = HIGH -> getConfidenceLevel score' = HIGH)
  /\ (score <= score' ->
      getConfidenceLevel score' = LOW -> getConfidenceLevel score = LOW).
Proof.
  unfold getConfidenceLabel, getConfidenceColor, getConfidenceLevel,
    CONFIDENCE_THRESHOLDS.high, CONFIDENCE_THRESHOLDS.medium.
  change 70%Q with (inject_Z 70). change 40%Q with (inject_Z 40).
  rewrite !Qle_bool_inject.
  destruct (70 <=? score) eqn:E1, (40 <=? score) eqn:E2,
           (70 <=? score') eqn:E3, (40 <=? score') eqn:E4;
    repeat split; intros; try reflexivity; try discriminate;
    repeat match goal with
           | H : (_ <=? _) = true |- _ => apply Z.leb_le in H
           | H : (_ <=? _) = false |- _ => apply Z.leb_gt in H
           end; lia.
Qed.

(** *** The timeline *)

Lemma findIndex_from_absent {A} (f : A -> bool) l : forall i,
  (forall x, In x l -> f x = false) -> findIndex_from f l i = -1.
Proof.
  induction l as [|x l IH]; intros i H; [reflexivity|].
  cbn [findIndex_from]. rewrite (H x (or_introl eq_refl)).
  apply IH. intros y Hy. apply H. now right.
Qed.

Lemma findIndex_from_found (c : string) ps : forall k p i,
  NoDup (map name ps) ->
  nth_error ps k = Some p -> name p = c ->
  findIndex_from (is_current (Some c)) ps i = i + Z.of_nat k.
Proof.
  induction ps as [|p0 ps IH]; intros k p i Hnd Hk Hc.
  - destruct k; discriminate.
  - cbn [map] in Hnd. inversion Hnd as [|? ? Hnotin Hnd']; subst.
    cbn [findIndex_from is_current]. destruct k as [|k].
    + cbn in Hk. injection Hk as <-. rewrite String.eqb_refl. lia.
    + cbn in Hk. destruct (String.eqb (name p0) (name p)) eqn:E.
      * apply String.eqb_eq in E. exfalso. apply Hnotin. rewrite E.
        apply in_map. now apply (nth_error_In _ k).
      * rewrite (IH k p (i + 1) Hnd' Hk eq_refl). lia.
Qed.

(** X19: on the phases of a generated plan, when the current phase is the
    one at position [k], the timeline shows the phases before it as
    completed, that phase as current and the later ones as upcoming; with
    no current phase, or one that names no phase of the plan, every phase
    is upcoming. *)
Theorem timeline_status_of_plan (input : CookPlanInput) :
  let ps := phases (generateCookPlan input) in
  (forall k c i p,
      nth_error ps k = Some c -> nth_error ps i = Some p ->
      getPhaseStatus ps (Some (name c)) p (Z.of_nat i) =
      if (i <? k)%nat then completed
      else if (i =? k)%nat then current else upcoming)
  /\ (forall i p, nth_error ps i = Some p ->
        getPhaseStatus ps None p (Z.of_nat i) = upcoming)
  /\ (forall c i p,
        ~ In c (map name ps) -> nth_error ps i = Some p ->
        getPhaseStatus ps (Some c) p (Z.of_nat i) = upcoming).
Proof.
  intros ps. pose proof (plan_names_NoDup input) as Hnd. fold ps in Hnd.
  clearbody ps. split; [|split].
  - intros k c i p Hk Hi. unfold getPhaseStatus, findIndex.
    rewrite (findIndex_from_found (name c) ps k c 0 Hnd Hk eq_refl).
    cbn [is_current].
    destruct (String.eqb (name p) (name c)) eqn:E.
    + apply String.eqb_eq in E.
      assert (i = k).
      { apply (proj1 (NoDup_nth_error (map name ps)) Hnd).
        - rewrite length_map. apply nth_error_Some. congruence.
        - rewrite !nth_error_map, Hk, Hi. cbn. now rewrite E. }
      subst i. rewrite Nat.ltb_irrefl, Nat.eqb_refl. reflexivity.
    + assert (i <> k).
      { intros ->. rewrite Hk in Hi. injection Hi as ->.
        rewrite String.eqb_refl in E. discriminate. }
      destruct ((0 + Z.of_nat k) =? -1) eqn:E1; [apply Z.eqb_eq in E1; lia|].
      destruct (Nat.ltb_spec i k) as [Hlt|Hge].
      * assert ((Z.of_nat i <? 0 + Z.of_nat k) = true) as ->
          by (apply Z.ltb_lt; lia).
        reflexivity.
      * assert ((Z.of_nat i <? 0 + Z.of_nat k) = false) as ->
          by (apply Z.ltb_ge; lia).
        destruct (Nat.eqb_spec i k); [contradiction | reflexivity].
  - intros i p _. unfold getPhaseStatus, findIndex. cbn [is_current].
    now rewrite findIndex_from_absent.
  - intros c i p Hc Hi. unfold getPhaseStatus, findIndex.
    assert (Habs : forall x, In x ps -> is_current (Some c) x = false).
    { intros x Hx. cbn [is_current]. apply String.eqb_neq. intros Hx'.
      apply Hc. rewrite <- Hx'. now apply in_map. }
    rewrite (Habs p (nth_error_In _ _ Hi)).
    now rewrite findIndex_from_absent.
Qed.

(** *** The confidence score of a list of phases *)

Lemma count_confidence_cons c p ps :
  count_confidence c (p :: ps) =
  (if Confidence_eqb (confidence p) c then 1 else 0) + count_confidence c ps.
Proof.
  unfold count_confidence. cbn [filter].
  destruct (Confidence_eqb (confidence p) c); cbn [List.length]; lia.
Qed.

Lemma count_confidence_nonneg c ps : 0 <= count_confidence c ps.
Proof. unfold count_confidence. lia. Qed.

Lemma count_confidence_Permutation c ps ps' :
  Permutation ps ps' -> count_confidence c ps = count_confidence c ps'.
Proof.
  induction 1 as [|p ps ps' _ IH|p q ps|ps ps' ps'' _ IH1 _ IH2].
  - reflexivity.
  - rewrite !count_confidence_cons. lia.
  - rewrite !count_confidence_cons. lia.
  - congruence.
Qed.

(** X20: the score of a list of phases does not depend on their order;
    adding a phase never raises it, and adding a High-confidence phase
    leaves it as it is. *)
Theorem overall_confidence_of_phases (s : SmokerType)
    (p : PhaseDefinition) (ps ps' : list PhaseDefinition) :
  (Permutation ps ps' ->
   calculateOverallConfidence ps s = calculateOverallConfidence ps' s)
  /\ calculateOverallConfidence (p :: ps) s <= calculateOverallConfidence ps s
  /\ (confidence p = HIGH ->
      calculateOverallConfidence (p :: ps) s = calculateOverallConfidence ps s).
Proof.
  split; [|split].
  - intros Hperm. unfold calculateOverallConfidence.
    now rewrite !(count_confidence_Permutation _ _ _ Hperm).
  - unfold calculateOverallConfidence. rewrite !count_confidence_cons.
    apply Z.max_le_compat_l, Z.min_le_compat_l, Math_round_mono.
    rewrite !inject_Z_plus.
    destruct (Confidence_eqb (confidence p) LOW),
             (Confidence_eqb (confidence p) MEDIUM);
      change (inject_Z 1) with 1%Q; change (inject_Z 0) with 0%Q; lra.
  - intros Hp. unfold calculateOverallConfidence.
    rewrite !count_confidence_cons, Hp. cbn [Confidence_eqb].
    rewrite !Z.add_0_l. reflexivity.
Qed.

(** *** The plan and the serve time *)

Lemma layout_within T segs :
  Forall (fun sg => sound_range (segRange sg)) segs ->
  layout_start T segs <= T
  /\ Forall (fun p => layout_start T segs <= startTime p /\ endTime p <= T)
            (layout T segs).
Proof.
  induction 1 as [|sg rest [Hmin Hle] _ [IHs IH]].
  - split; [apply Z.le_refl | constructor].
  - rewrite layout_start_cons, layout_cons. split; [lia|].
    constructor.
    + cbn [mkPhase startTime endTime]. lia.
    + eapply Forall_impl; [|exact IH]. cbn beta. intros p [H1 H2]. lia.
Qed.

(** X21: on a validated request every phase lies between the recommended
    start time and the instant 30 minutes before the serve time. *)
Theorem plan_before_serve_time (input : CookPlanInput) :
  planCookSchema input = true ->
  let plan := generateCookPlan input in
  Forall (fun p => recommendedStartTime plan <= startTime p
                   /\ endTime p <= serveTime input - 30 * 60000)
         (phases plan).
Proof.
  intros Hvalid plan. subst plan. rewrite generateCookPlan_layout. cbv zeta.
  cbn [phases recommendedStartTime]. unfold assign_order.
  apply assign_order_from_Forall; [auto|].
  apply layout_within, segments_sound, Hvalid.
Qed.

Lemma plan_before_serve_time_witness :
  planCookSchema brisketInput = true
  /\ Forall (fun p => recommendedStartTime (generateCookPlan brisketInput)
                        <= startTime p
                      /\ endTime p <= serveTime brisketInput - 30 * 60000)
       (phases (generateCookPlan brisketInput)).
Proof.
  split; [reflexivity|].
  apply (plan_before_serve_time brisketInput). reflexivity.
Defined.

(** *** The temperature stepper *)

(** X22: whatever the previous value and the step, the temperature the
    stepper of the logger produces passes the schema of logged
    temperatures, and a sum already inside 32 to 220 F is kept as it is. *)
Theorem adjustTemp_is_loggable (prev amount : Q) :
  logTempSchema (adjustTemp prev amount) = true
  /\ (logTempSchema (prev + amount) = true ->
      (adjustTemp prev amount == prev + amount)%Q).
Proof.
  unfold logTempSchema, adjustTemp. rewrite !z_number_spec. split.
  - split; [apply Q.le_max_l|].
    apply Q.max_lub; [lra | apply Q.le_min_l].
  - intros [Hlo Hhi]. rewrite Q.min_r by exact Hhi. now apply Q.max_r.
Qed.
